(** * frida_tools/compiler.py: the compiler front end, embedded and verified

    The module drives an external bundling engine ([frida.Compiler]) and
    reacts to its four notifications.  This development embeds
    [CompilerApplication] as state-passing functions over an explicit world
    (the instance fields, the reactor queue, the file system, standard output
    and the clock) and proves the properties the specification states about
    it. *)

From Stdlib Require Import ZArith NArith Strings.Byte.
From stdpp Require Import base option list gmap sets.

Set Default Proof Using "Type".
Local Open Scope N_scope.

(** ** Python text and the text layer of a stream *)

(** A Python [str] is a sequence of Unicode code points. *)
Abbreviation str := (list N).

Definition LF : N := 10.
Definition CR : N := 13.

Definition byte_of (n : N) : byte := default x00 (Byte.of_N n).

(** The codecs a text stream may be opened with. *)
Inductive Encoding := Utf8 | Ascii.

(** UTF-8 of one code point; a lone surrogate (or a value past U+10FFFF)
    has no encoding: the codec raises [UnicodeEncodeError]. *)
Definition utf8_encode_char (c : N) : option (list byte) :=
  if c <? 0x80 then Some [byte_of c]
  else if c <? 0x800 then
    Some [byte_of (N.lor 0xC0 (N.shiftr c 6));
          byte_of (N.lor 0x80 (N.land c 0x3F))]
  else if c <? 0x10000 then
    if (0xD800 <=? c) && (c <=? 0xDFFF) then None
    else Some [byte_of (N.lor 0xE0 (N.shiftr c 12));
               byte_of (N.lor 0x80 (N.land (N.shiftr c 6) 0x3F));
               byte_of (N.lor 0x80 (N.land c 0x3F))]
  else if c <? 0x110000 then
    Some [byte_of (N.lor 0xF0 (N.shiftr c 18));
          byte_of (N.lor 0x80 (N.land (N.shiftr c 12) 0x3F));
          byte_of (N.lor 0x80 (N.land (N.shiftr c 6) 0x3F));
          byte_of (N.lor 0x80 (N.land c 0x3F))]
  else None.

Definition ascii_encode_char (c : N) : option (list byte) :=
  if c <? 0x80 then Some [byte_of c] else None.

Definition encode_char (enc : Encoding) : N -> option (list byte) :=
  match enc with
  | Utf8 => utf8_encode_char
  | Ascii => ascii_encode_char
  end.

Fixpoint encode (enc : Encoding) (s : str) : option (list byte) :=
  match s with
  | [] => Some []
  | c :: s' =>
      match encode_char enc c, encode enc s' with
      | Some bs, Some rest => Some (bs ++ rest)
      | _, _ => None
      end
  end.

(** A text stream turns every ["\n"] written into its line separator
    ([newline="\n"] keeps it, the platform default of Windows writes
    ["\r\n"]) and then encodes. *)
Record TextLayer := { encoding : Encoding; write_nl : str }.

Fixpoint translate_newlines (nl : str) (s : str) : str :=
  match s with
  | [] => []
  | c :: s' => (if c =? LF then nl else [c]) ++ translate_newlines nl s'
  end.

Definition layer_bytes (l : TextLayer) (s : str) : option (list byte) :=
  encode (encoding l) (translate_newlines (write_nl l) s).

(** [open(..., encoding="utf-8", newline="\n")]. *)
Definition utf8_lf : TextLayer := {| encoding := Utf8; write_nl := [LF] |}.

(** ** Exceptions *)

(** The [Exception] subclasses that occur; all are caught by
    [except Exception]. *)
Inductive Exception :=
  | OSError (msg : str)
  | UnicodeEncodeError
  | AssertionError
  | EngineError (msg : str).

(** A computation returns a value or raises. *)
Inductive Outcome (A : Type) :=
  | Returned (a : A)
  | Raised (e : Exception).
Arguments Returned {A} a.
Arguments Raised {A} e.

(** ** Command-line options and instance fields *)

Inductive Mode := build | watch.

(** The [argparse.Namespace] that [_add_options] produces. *)
Record Options := {
  opt_module : str;
  opt_output : option str;
  opt_watch : bool;
  opt_no_source_maps : bool;
  opt_compress : bool;
  opt_verbose : bool;
  opt_output_format : str;
  opt_bundle_format : str;
  opt_type_check : str;
}.

(** ** The world the application runs in *)

Section Orchestrator.

(** Timestamps are the floats of [timeit.default_timer]; the module only
    stores them and hands them on.  Diagnostic records are dictionaries the
    module never inspects.  The renderers are those of
    [frida_tools.cli_formatting], and [abspath] is [os.path.abspath] with the
    working directory made explicit. *)
Context {Time Diagnostic : Type}.
Variable format_error : Exception -> str.
Variable format_compiling : str -> str -> str.
Variable format_compiled : str -> str -> Time -> Time -> str.
Variable format_diagnostic : Diagnostic -> str -> str.
Variable abspath : str -> str -> str.

(** The deferred actions the module hands to the reactor: each lambda of
    the source, with the values it closes over. *)
Inductive Task :=
  | task_on_compiler_finished
  | task_on_compiler_output (bundle : str)
  | task_on_compiler_diagnostics (diagnostics : list Diagnostic)
  | task_print_compiler_starting
  | task_on_fatal_error (error : Exception).

(** The notifications of the engine, with their payloads. *)
Inductive Event :=
  | starting
  | finished
  | output (bundle : str)
  | diagnostics (ds : list Diagnostic).

(** The fields of a [CompilerApplication] set by [_initialize]. *)
Record App := {
  _module : str;
  _output : option str;
  _mode : Mode;
  _verbose : bool;
  _compiler_options : list (str * str);
  _compilation_started : option Time;
}.

(** The reactor: the tasks not yet run, oldest first, and the exit code
    once a stop was requested. *)
Record Reactor := {
  pending : list Task;
  exit_code : option Z;
}.

(** The operating system as the module sees it.  [faults] says which
    input/output operation fails, with what, and after how many bytes;
    [clock] what every reading of the timer returns. *)
Record Os := {
  cwd : str;
  files : gmap str (list byte);
  open_fds : gset nat;
  io_ops : nat;
  faults : nat -> option (Exception * nat);
  stdout : list str;
  stdout_layer : TextLayer;
  ticks : nat;
  clock : nat -> Time;
}.

Record World := {
  self : App;
  reactor : Reactor;
  os : Os;
  engine_watching : bool;
}.

Definition with_self (f : App -> App) (w : World) : World :=
  {| self := f (self w); reactor := reactor w; os := os w;
     engine_watching := engine_watching w |}.

Definition with_reactor (f : Reactor -> Reactor) (w : World) : World :=
  {| self := self w; reactor := f (reactor w); os := os w;
     engine_watching := engine_watching w |}.

Definition with_os (f : Os -> Os) (w : World) : World :=
  {| self := self w; reactor := reactor w; os := f (os w);
     engine_watching := engine_watching w |}.

Definition with_watching (b : bool) (w : World) : World :=
  {| self := self w; reactor := reactor w; os := os w; engine_watching := b |}.

Definition set_compilation_started (t : option Time) (a : App) : App :=
  {| _module := _module a; _output := _output a; _mode := _mode a;
     _verbose := _verbose a; _compiler_options := _compiler_options a;
     _compilation_started := t |}.

Definition set_pending (q : list Task) (r : Reactor) : Reactor :=
  {| pending := q; exit_code := exit_code r |}.

Definition set_exit_code (c : option Z) (r : Reactor) : Reactor :=
  {| pending := pending r; exit_code := c |}.

Definition set_stdout (out : list str) (o : Os) : Os :=
  {| cwd := cwd o; files := files o; open_fds := open_fds o;
     io_ops := io_ops o; faults := faults o; stdout := out;
     stdout_layer := stdout_layer o; ticks := ticks o; clock := clock o |}.

Definition set_ticks (n : nat) (o : Os) : Os :=
  {| cwd := cwd o; files := files o; open_fds := open_fds o;
     io_ops := io_ops o; faults := faults o; stdout := stdout o;
     stdout_layer := stdout_layer o; ticks := n; clock := clock o |}.

Definition set_files (fs : gmap str (list byte)) (o : Os) : Os :=
  {| cwd := cwd o; files := fs; open_fds := open_fds o;
     io_ops := io_ops o; faults := faults o; stdout := stdout o;
     stdout_layer := stdout_layer o; ticks := ticks o; clock := clock o |}.

Definition set_open_fds (fds : gset nat) (o : Os) : Os :=
  {| cwd := cwd o; files := files o; open_fds := fds;
     io_ops := io_ops o; faults := faults o; stdout := stdout o;
     stdout_layer := stdout_layer o; ticks := ticks o; clock := clock o |}.

Definition set_io_ops (n : nat) (o : Os) : Os :=
  {| cwd := cwd o; files := files o; open_fds := open_fds o;
     io_ops := n; faults := faults o; stdout := stdout o;
     stdout_layer := stdout_layer o; ticks := ticks o; clock := clock o |}.

(** ** Effects: state passing with exceptions

    Whether a computation returns or raises, the world it leaves behind is
    kept (nothing is rolled back). *)

Definition M (A : Type) : Type := World -> Outcome A * World.

Definition ret {A} (a : A) : M A := fun w => (Returned a, w).

Definition raise {A} (e : Exception) : M A := fun w => (Raised e, w).

Definition bind {A B} (m : M A) (k : A -> M B) : M B :=
  fun w =>
    match m w with
    | (Returned a, w') => k a w'
    | (Raised e, w') => (Raised e, w')
    end.

Notation "x <- m ;; k" := (bind m (fun x => k))
  (at level 100, m at next level, right associativity).
Notation "m ;; k" := (bind m (fun _ => k))
  (at level 100, right associativity).

Definition gets {A} (f : World -> A) : M A := fun w => (Returned (f w), w).

Definition modify (f : World -> World) : M unit := fun w => (Returned tt, f w).

(** [try: m except Exception as e: h e]. *)
Definition try_except {A} (m : M A) (h : Exception -> M A) : M A :=
  fun w =>
    match m w with
    | (Returned a, w') => (Returned a, w')
    | (Raised e, w') => h e w'
    end.

(** [try: m finally: c], for a clean-up [c] that cannot fail. *)
Definition finally {A} (m : M A) (c : World -> World) : M A :=
  fun w => let (r, w') := m w in (r, c w').

Fixpoint for_each {A} (l : list A) (body : A -> M unit) : M unit :=
  match l with
  | [] => ret tt
  | x :: l' => body x ;; for_each l' body
  end.

(** The world after a computation, and whether it raised. *)
Definition exec {A} (m : M A) (w : World) : World := snd (m w).
Definition result {A} (m : M A) (w : World) : Outcome A := fst (m w).

(** ** The operating system *)

(** [os.getcwd()]. *)
Definition getcwd : M str := gets (fun w => cwd (os w)).

(** [timer()]: the next reading of the clock. *)
Definition timer : M Time :=
  fun w =>
    (Returned (clock (os w) (ticks (os w))),
     with_os (set_ticks (S (ticks (os w)))) w).

(** Standard output records the text written to it, in order; the bytes
    that leave the process are those of the platform's text layer
    ([stdout_bytes]). *)
Definition print_text (s : str) (w : World) : World :=
  with_os (set_stdout (stdout (os w) ++ [s])) w.

(** [sys.stdout.write(s)]: a text the layer of standard output cannot
    encode raises [UnicodeEncodeError] and writes nothing. *)
Definition sys_stdout_write (s : str) : M unit :=
  fun w =>
    match layer_bytes (stdout_layer (os w)) s with
    | Some _ => (Returned tt, print_text s w)
    | None => (Raised UnicodeEncodeError, w)
    end.

Definition stdout_bytes (w : World) : option (list byte) :=
  layer_bytes (stdout_layer (os w)) (concat (stdout (os w))).

(** An open file object. *)
Record Handle := {
  h_fd : nat;
  h_path : str;
  h_layer : TextLayer;
}.

(** The fault, if any, that hits the next input/output operation; the
    operation is consumed. *)
Definition next_fault : M (option (Exception * nat)) :=
  fun w =>
    (Returned (faults (os w) (io_ops (os w))),
     with_os (set_io_ops (S (io_ops (os w)))) w).

(** [open(path, "w", encoding=..., newline=...)]: unless the system
    refuses, the file is created or truncated to nothing and a fresh
    descriptor is taken. *)
Definition open_w (path : str) (layer : TextLayer) : M Handle :=
  flt <- next_fault ;;
  match flt with
  | Some (e, _) => raise e
  | None =>
      fd <- gets (fun w => fresh (open_fds (os w))) ;;
      modify (fun w =>
        with_os (fun o =>
          set_open_fds ({[fd]} ∪ open_fds o) (set_files (<[path := []]> (files o)) o)) w) ;;
      ret {| h_fd := fd; h_path := path; h_layer := layer |}
  end.

Definition append_file (path : str) (bs : list byte) (o : Os) : Os :=
  set_files (<[path := default [] (files o !! path) ++ bs]> (files o)) o.

(** [f.write(s)]: the text is encoded as a whole first
    ([UnicodeEncodeError] writes nothing); a failing device keeps the first
    [n] bytes and raises. *)
Definition write (f : Handle) (s : str) : M unit :=
  match layer_bytes (h_layer f) s with
  | None => raise UnicodeEncodeError
  | Some bs =>
      flt <- next_fault ;;
      match flt with
      | None => modify (with_os (append_file (h_path f) bs))
      | Some (e, n) =>
          modify (with_os (append_file (h_path f) (take n bs))) ;;
          raise e
      end
  end.

(** [f.close()]: the descriptor is given back. *)
Definition close (f : Handle) (w : World) : World :=
  with_os (fun o => set_open_fds (open_fds o ∖ {[h_fd f]}) o) w.

(** [with open(path, "w", ...) as f: body f]: the file is closed on the
    way out, whether [body] returns or raises; the exception goes on. *)
Definition with_open {A} (path : str) (layer : TextLayer)
    (body : Handle -> M A) : M A :=
  f <- open_w path layer ;;
  finally (body f) (close f).

(** ** The base class and the reactor *)

(** Modelled from the spec: [Reactor.schedule] of
    [frida_tools.reactor], which is not part of the sources at hand: it
    enqueues a deferred action behind those already waiting and returns. *)
Definition schedule (t : Task) : M unit :=
  modify (fun w => with_reactor (set_pending (pending (reactor w) ++ [t])) w).

(** Modelled from the spec: [ConsoleApplication._exit] of
    [frida_tools.application], which is not part of the sources at hand: it
    asks the reactor to stop and sets the exit code of the process. *)
Definition _exit (code : Z) : M unit :=
  modify (with_reactor (set_exit_code (Some code))).

(** Modelled from the spec: [ConsoleApplication._print] of
    [frida_tools.application], which is not part of the sources at hand: it
    prints one line on standard output; the spec gives it no way to
    fail. *)
Definition _print (line : str) : M unit :=
  modify (print_text (line ++ [LF])).

(** ** [CompilerApplication] *)

Definition ESC : N := 27.

Definition _on_fatal_error (error : Exception) : M unit :=
  _print (format_error error) ;;
  _exit 1.

Definition _on_compiler_starting : M unit :=
  t <- timer ;;
  modify (with_self (set_compilation_started (Some t))) ;;
  verbose <- gets (fun w => _verbose (self w)) ;;
  if verbose : bool then schedule task_print_compiler_starting else ret tt.

Definition _print_compiler_starting : M unit :=
  mode <- gets (fun w => _mode (self w)) ;;
  (match mode with
   | watch => sys_stdout_write [ESC; 99]
   | build => ret tt
   end) ;;
  module <- gets (fun w => _module (self w)) ;;
  dir <- getcwd ;;
  _print (format_compiling module dir).

Definition _on_compiler_finished : M unit :=
  verbose <- gets (fun w => _verbose (self w)) ;;
  if verbose : bool then
    time_finished <- timer ;;
    started <- gets (fun w => _compilation_started (self w)) ;;
    match started with
    | None => raise AssertionError
    | Some time_started =>
        module <- gets (fun w => _module (self w)) ;;
        dir <- getcwd ;;
        _print (format_compiled module dir time_started time_finished)
    end
  else ret tt.

Definition _on_compiler_output (bundle : str) : M unit :=
  dest <- gets (fun w => _output (self w)) ;;
  match dest with
  | Some path =>
      try_except
        (with_open path utf8_lf (fun f => write f bundle))
        (fun e => _on_fatal_error e)
  | None => sys_stdout_write bundle
  end.

Definition _on_compiler_diagnostics (ds : list Diagnostic) : M unit :=
  dir <- getcwd ;;
  for_each ds (fun diag => _print (format_diagnostic diag dir)).

(** The callbacks [_initialize] registers with [compiler.on]: the method
    itself for ["starting"], a closure that schedules the method for the
    other three. *)
Definition on_compiler_finished : M unit :=
  schedule task_on_compiler_finished.

Definition on_compiler_output (bundle : str) : M unit :=
  schedule (task_on_compiler_output bundle).

Definition on_compiler_diagnostics (ds : list Diagnostic) : M unit :=
  schedule (task_on_compiler_diagnostics ds).

Definition callback (ev : Event) : M unit :=
  match ev with
  | starting => _on_compiler_starting
  | finished => on_compiler_finished
  | output bundle => on_compiler_output bundle
  | diagnostics ds => on_compiler_diagnostics ds
  end.

(** Text constants of the option dictionary, as code points. *)
Definition s_project_root : str := [112; 114; 111; 106; 101; 99; 116; 95; 114; 111; 111; 116].
Definition s_output_format : str := [111; 117; 116; 112; 117; 116; 95; 102; 111; 114; 109; 97; 116].
Definition s_bundle_format : str := [98; 117; 110; 100; 108; 101; 95; 102; 111; 114; 109; 97; 116].
Definition s_type_check : str := [116; 121; 112; 101; 95; 99; 104; 101; 99; 107].
Definition s_source_maps : str := [115; 111; 117; 114; 99; 101; 95; 109; 97; 112; 115].
Definition s_compression : str := [99; 111; 109; 112; 114; 101; 115; 115; 105; 111; 110].
Definition s_omitted : str := [111; 109; 105; 116; 116; 101; 100].
Definition s_included : str := [105; 110; 99; 108; 117; 100; 101; 100].
Definition s_terser : str := [116; 101; 114; 115; 101; 114].
Definition s_none : str := [110; 111; 110; 101].

Definition _initialize (options : Options) (w : World) : World :=
  let mode := if opt_watch options then watch else build in
  with_self (fun _ =>
    {| _module := abspath (cwd (os w)) (opt_module options);
       _output := opt_output options;
       _mode := mode;
       _verbose :=
         match mode with watch => true | build => false end
         || opt_verbose options;
       _compiler_options :=
         [ (s_project_root, cwd (os w));
           (s_output_format, opt_output_format options);
           (s_bundle_format, opt_bundle_format options);
           (s_type_check, opt_type_check options);
           (s_source_maps,
             if opt_no_source_maps options then s_omitted else s_included);
           (s_compression,
             if opt_compress options then s_terser else s_none) ];
       _compilation_started := None |}) w.

(** ** The engine

    One call of [compiler.build] or [compiler.watch], seen from the
    caller: the notifications delivered while the call runs, in order, and
    the exception it ends with, if any. *)
Record EngineCall := {
  emitted : list Event;
  raised : option Exception;
}.

Definition engine_call (call : EngineCall) : M unit :=
  for_each (emitted call) callback ;;
  match raised call with
  | Some e => raise e
  | None => ret tt
  end.

(** [compiler.build(module, **options)]; what the engine makes of its
    arguments is the engine's business, [call] says how the call goes. *)
Definition compiler_build (module : str) (options : list (str * str))
    (call : EngineCall) : M unit :=
  engine_call call.

(** [compiler.watch(module, **options)]: once the call has returned, the
    engine goes on watching and notifies again on every change. *)
Definition compiler_watch (module : str) (options : list (str * str))
    (call : EngineCall) : M unit :=
  engine_call call ;;
  modify (with_watching true).

Definition _start (call : EngineCall) : M unit :=
  try_except
    (mode <- gets (fun w => _mode (self w)) ;;
     module <- gets (fun w => _module (self w)) ;;
     options <- gets (fun w => _compiler_options (self w)) ;;
     match mode with
     | build => compiler_build module options call ;; _exit 0
     | watch => compiler_watch module options call
     end)
    (fun e => schedule (task_on_fatal_error e)).

(** ** Running the reactor *)

Definition task_body (t : Task) : M unit :=
  match t with
  | task_on_compiler_finished => _on_compiler_finished
  | task_on_compiler_output bundle => _on_compiler_output bundle
  | task_on_compiler_diagnostics ds => _on_compiler_diagnostics ds
  | task_print_compiler_starting => _print_compiler_starting
  | task_on_fatal_error e => _on_fatal_error e
  end.

(** Modelled from the spec: the reactor's treatment of a task that raises
    ([frida_tools.reactor] is not part of the sources at hand): the fault is
    not swallowed but sent down the fatal-error path. *)
Definition run_task (t : Task) (w : World) : World :=
  match task_body t w with
  | (Returned _, w') => w'
  | (Raised e, w') => exec (_on_fatal_error e) w'
  end.

(** What can happen next: the engine delivers a notification (its callback
    runs), or the reactor takes the oldest task and runs it. *)
Inductive Action :=
  | Emit (ev : Event)
  | RunNext.

Definition step (a : Action) (w : World) : World :=
  match a with
  | Emit ev => exec (callback ev) w
  | RunNext =>
      match pending (reactor w) with
      | [] => w
      | t :: q => run_task t (with_reactor (set_pending q) w)
      end
  end.

Definition steps (acts : list Action) (w : World) : World :=
  foldl (fun w a => step a w) w acts.

(** The engine notifies outside a [build] or [watch] call only while it
    is watching. *)
Definition enabled (a : Action) (w : World) : bool :=
  match a with
  | Emit _ => engine_watching w
  | RunNext => bool_decide (pending (reactor w) ≠ [])
  end.

(** Modelled from the spec: the run loop of [frida_tools.reactor], which
    is not part of the sources at hand: tasks are taken oldest first and run
    one at a time, and none is dropped: a stop that was requested takes
    effect once the queue is empty. *)
Fixpoint reactor_run (fuel : nat) (w : World) : option World :=
  match pending (reactor w) with
  | [] => Some w
  | _ :: _ =>
      match fuel with
      | O => None
      | S fuel' => reactor_run fuel' (step RunNext w)
      end
  end.

(** ** What each callback leaves for the reactor *)

Definition scheduled_by (verbose : bool) (ev : Event) : list Task :=
  match ev with
  | starting => if verbose then [task_print_compiler_starting] else []
  | finished => [task_on_compiler_finished]
  | output bundle => [task_on_compiler_output bundle]
  | diagnostics ds => [task_on_compiler_diagnostics ds]
  end.

(** The world after the ["starting"] callback: the clock was read once and
    the reading stored. *)
Definition started_now (w : World) : World :=
  with_self (set_compilation_started (Some (clock (os w) (ticks (os w)))))
    (with_os (set_ticks (S (ticks (os w)))) w).

Definition enqueue (ts : list Task) (w : World) : World :=
  with_reactor (set_pending (pending (reactor w) ++ ts)) w.

(** How one step may change the exit code: it leaves it alone, or it is
    the fatal-error path and sets it to 1. *)
Definition exit_code_kept_or_failed (before after : option Z) : Prop :=
  after = before ∨ after = Some 1%Z.

(** * Properties *)

Ltac unfold_monad :=
  unfold exec, result, bind, ret, raise, gets, modify, try_except, finally,
    getcwd, timer, schedule, _exit, _print, print_text, next_fault in *.

Ltac destruct_world w :=
  let a := fresh "a" in
  let r := fresh "r" in
  let o := fresh "o" in
  let e := fresh "watching" in
  destruct w as [a r o e]; destruct a, r, o.

Lemma enqueue_nil w : enqueue [] w = w.
Proof. destruct_world w. unfold enqueue, with_reactor, set_pending; simpl. by rewrite app_nil_r. Qed.


Lemma callback_finished w :
  callback finished w = (Returned tt, enqueue [task_on_compiler_finished] w).
Proof. reflexivity. Qed.

Lemma callback_output bundle w :
  callback (output bundle) w
  = (Returned tt, enqueue [task_on_compiler_output bundle] w).
Proof. reflexivity. Qed.

Lemma callback_diagnostics ds w :
  callback (diagnostics ds) w
  = (Returned tt, enqueue [task_on_compiler_diagnostics ds] w).
Proof. reflexivity. Qed.

Lemma callback_starting w :
  callback starting w
  = (Returned tt,
     enqueue (scheduled_by (_verbose (self w)) starting) (started_now w)).
Proof.
  simpl. unfold _on_compiler_starting. unfold_monad. simpl.
  destruct (_verbose (self w)); simpl; [reflexivity|].
  by rewrite enqueue_nil.
Qed.

(** Every callback returns, and what it enqueues is [scheduled_by]. *)
Lemma callback_spec ev w :
  callback ev w
  = (Returned tt,
     enqueue (scheduled_by (_verbose (self w)) ev)
       (match ev with starting => started_now w | _ => w end)).
Proof.
  destruct ev; [apply callback_starting | reflexivity ..].
Qed.

Lemma for_each_print {A} (f : A -> str) (l : list A) w :
  for_each l (fun x => _print (f x)) w
  = (Returned tt,
     with_os (set_stdout (stdout (os w) ++ map (fun x => f x ++ [LF]) l)) w).
Proof.
  revert w. induction l as [|x l IH]; intros w; simpl.
  - unfold_monad. f_equal. destruct_world w. unfold with_os, set_stdout; simpl.
    by rewrite app_nil_r.
  - unfold bind at 1. unfold _print at 1, modify, print_text.
    rewrite IH. f_equal. unfold with_os, set_stdout; simpl.
    by rewrite <- app_assoc.
Qed.


(** *** The fatal-error path and the file sink, step by step *)

Definition fatal (e : Exception) (w : World) : World :=
  with_reactor (set_exit_code (Some 1%Z))
    (with_os (set_stdout (stdout (os w) ++ [format_error e ++ [LF]])) w).

Lemma _on_fatal_error_spec e w :
  _on_fatal_error e w = (Returned tt, fatal e w).
Proof. reflexivity. Qed.

(** The world after one attempt to deliver to [path]: [k] input/output
    operations were used and the file holds [content]. *)
Definition delivered (path : str) (content : list byte) (k : nat)
    (w : World) : World :=
  with_os (fun o =>
    set_io_ops (k + io_ops o) (set_files (<[path := content]> (files o)) o)) w.

Definition deliver (path : str) (bundle : str) : M unit :=
  with_open path utf8_lf (fun f => write f bundle).

Lemma release_fresh (X : gset nat) : ({[fresh X]} ∪ X) ∖ {[fresh X]} = X.
Proof.
  pose proof (is_fresh X) as Hfresh. apply set_eq. intros x.
  rewrite elem_of_difference, elem_of_union, elem_of_singleton. split.
  - intros [[-> | Hx] Hne]; done.
  - intros Hx. split; [by right | by intros ->].
Qed.

Lemma translate_newlines_lf s : translate_newlines [LF] s = s.
Proof.
  induction s as [|c s IH]; simpl; [done|].
  rewrite IH. destruct (N.eqb_spec c LF) as [->|]; done.
Qed.

Lemma utf8_lf_bytes s : layer_bytes utf8_lf s = encode Utf8 s.
Proof. unfold layer_bytes; simpl. by rewrite translate_newlines_lf. Qed.

Lemma deliver_open_fault path bundle w e n :
  faults (os w) (io_ops (os w)) = Some (e, n) ->
  deliver path bundle w = (Raised e, with_os (set_io_ops (S (io_ops (os w)))) w).
Proof.
  intros H. unfold deliver, with_open, open_w. unfold_monad. simpl.
  by rewrite H.
Qed.

Lemma deliver_unencodable path bundle w :
  faults (os w) (io_ops (os w)) = None ->
  encode Utf8 bundle = None ->
  deliver path bundle w = (Raised UnicodeEncodeError, delivered path [] 1 w).
Proof.
  intros H E. unfold deliver, with_open, open_w, write. unfold_monad. simpl.
  rewrite H. simpl. rewrite utf8_lf_bytes, E. simpl.
  f_equal. destruct_world w. unfold delivered, close, with_os, set_open_fds,
    set_files, set_io_ops; simpl.
  by rewrite release_fresh.
Qed.

Lemma deliver_write_fault path bundle w bs e n :
  faults (os w) (io_ops (os w)) = None ->
  encode Utf8 bundle = Some bs ->
  faults (os w) (S (io_ops (os w))) = Some (e, n) ->
  deliver path bundle w = (Raised e, delivered path (take n bs) 2 w).
Proof.
  intros H E F. unfold deliver, with_open, open_w, write. unfold_monad. simpl.
  rewrite H. simpl. rewrite utf8_lf_bytes, E. simpl. rewrite F. simpl.
  f_equal. destruct_world w. unfold delivered, close, with_os, set_open_fds,
    set_files, set_io_ops, append_file; simpl.
  rewrite release_fresh, lookup_insert_eq, insert_insert_eq. done.
Qed.

Lemma deliver_ok path bundle w bs :
  faults (os w) (io_ops (os w)) = None ->
  encode Utf8 bundle = Some bs ->
  faults (os w) (S (io_ops (os w))) = None ->
  deliver path bundle w = (Returned tt, delivered path bs 2 w).
Proof.
  intros H E F. unfold deliver, with_open, open_w, write. unfold_monad. simpl.
  rewrite H. simpl. rewrite utf8_lf_bytes, E. simpl. rewrite F. simpl.
  f_equal. destruct_world w. unfold delivered, close, with_os, set_open_fds,
    set_files, set_io_ops, append_file; simpl.
  rewrite release_fresh, lookup_insert_eq, insert_insert_eq. done.
Qed.

(** Whatever happens, a delivery ends in one of the four ways above. *)
Lemma deliver_cases path bundle w :
  (exists e, deliver path bundle w
             = (Raised e, with_os (set_io_ops (S (io_ops (os w)))) w))
  \/ (exists e content k,
        deliver path bundle w = (Raised e, delivered path content k w))
  \/ (exists content k,
        deliver path bundle w = (Returned tt, delivered path content k w)).
Proof.
  destruct (faults (os w) (io_ops (os w))) as [[e n]|] eqn:H.
  { left. exists e. by eapply deliver_open_fault. }
  right.
  destruct (encode Utf8 bundle) as [bs|] eqn:E.
  2:{ left. eexists _, _, _. by apply deliver_unencodable. }
  destruct (faults (os w) (S (io_ops (os w)))) as [[e n]|] eqn:F.
  - left. eexists _, _, _. by eapply deliver_write_fault.
  - right. eexists _, _. by eapply deliver_ok.
Qed.

Lemma _on_compiler_output_file bundle path w :
  _output (self w) = Some path ->
  _on_compiler_output bundle w
  = try_except (deliver path bundle) _on_fatal_error w.
Proof.
  intros H. unfold _on_compiler_output. unfold bind at 1. unfold gets at 1.
  by rewrite H.
Qed.

Lemma _on_compiler_output_stdout bundle w :
  _output (self w) = None ->
  _on_compiler_output bundle w = sys_stdout_write bundle w.
Proof.
  intros H. unfold _on_compiler_output. unfold bind at 1. unfold gets at 1.
  by rewrite H.
Qed.

Lemma sys_stdout_write_ok s w bs :
  layer_bytes (stdout_layer (os w)) s = Some bs ->
  sys_stdout_write s w = (Returned tt, print_text s w).
Proof. intros H. unfold sys_stdout_write. by rewrite H. Qed.

Lemma sys_stdout_write_cases s w :
  sys_stdout_write s w = (Returned tt, print_text s w)
  \/ sys_stdout_write s w = (Raised UnicodeEncodeError, w).
Proof.
  unfold sys_stdout_write.
  destruct (layer_bytes (stdout_layer (os w)) s); [by left | by right].
Qed.

(** The terminal reset sequence is plain ASCII: every layer encodes it. *)
Lemma reset_sequence_encodable l :
  layer_bytes l [ESC; 99] = Some [x1b; x63].
Proof. destruct l as [[] nl]; reflexivity. Qed.


(** *** What a task may and may not touch *)

(** The parts of the world no task changes: the instance fields, the queue
    behind it, the open descriptors and the engine; the exit code is left
    alone or set to 1. *)
Definition task_frame (w w' : World) : Prop :=
  self w' = self w
  /\ pending (reactor w') = pending (reactor w)
  /\ engine_watching w' = engine_watching w
  /\ open_fds (os w') = open_fds (os w)
  /\ exit_code_kept_or_failed (exit_code (reactor w)) (exit_code (reactor w')).

Lemma task_frame_refl w : task_frame w w.
Proof. repeat split; by left. Qed.

Lemma task_frame_fatal e w w' : task_frame w w' -> task_frame w (fatal e w').
Proof.
  intros (Ha & Hp & He & Hf & Hx). repeat split; simpl; try done. by right.
Qed.

Lemma task_frame_stdout out w : task_frame w (with_os (set_stdout out) w).
Proof. repeat split; by left. Qed.

Lemma task_frame_delivered path content k w :
  task_frame w (delivered path content k w).
Proof. repeat split; by left. Qed.

Lemma task_frame_io n w : task_frame w (with_os (set_io_ops n) w).
Proof. repeat split; by left. Qed.

(** With a file destination the handler always returns. *)
Lemma _on_compiler_output_file_returns bundle path w :
  _output (self w) = Some path ->
  result (_on_compiler_output bundle) w = Returned tt.
Proof.
  intros Hout. unfold result.
  rewrite (_on_compiler_output_file _ path) by done. unfold try_except.
  destruct (deliver_cases path bundle w)
    as [[e ->]|[(e & c & k & ->)|(c & k & ->)]]; done.
Qed.

Lemma _on_compiler_output_frame bundle w :
  task_frame w (exec (_on_compiler_output bundle) w).
Proof.
  destruct (_output (self w)) as [path|] eqn:Hout.
  - unfold exec. rewrite (_on_compiler_output_file _ path) by done.
    unfold try_except.
    destruct (deliver_cases path bundle w)
      as [[e ->]|[(e & c & k & ->)|(c & k & ->)]];
      rewrite ?_on_fatal_error_spec; cbn [snd].
    + apply task_frame_fatal, task_frame_io.
    + apply task_frame_fatal, task_frame_delivered.
    + apply task_frame_delivered.
  - unfold exec. rewrite _on_compiler_output_stdout by done.
    destruct (sys_stdout_write_cases bundle w) as [-> | ->]; cbn [snd].
    + apply task_frame_stdout.
    + apply task_frame_refl.
Qed.

Lemma _on_compiler_finished_quiet w :
  _verbose (self w) = false -> _on_compiler_finished w = (Returned tt, w).
Proof.
  intros H. unfold _on_compiler_finished. unfold bind at 1. unfold gets at 1.
  by rewrite H.
Qed.

Lemma _on_compiler_finished_verbose w t0 :
  _verbose (self w) = true ->
  _compilation_started (self w) = Some t0 ->
  _on_compiler_finished w
  = (Returned tt,
     with_os (fun o =>
       set_stdout
         (stdout o ++ [format_compiled (_module (self w)) (cwd o) t0
                         (clock o (ticks o)) ++ [LF]])
         (set_ticks (S (ticks o)) o)) w).
Proof.
  intros H S. unfold _on_compiler_finished. unfold_monad. simpl.
  by rewrite H, S.
Qed.

Lemma _on_compiler_finished_unstarted w :
  _verbose (self w) = true ->
  _compilation_started (self w) = None ->
  _on_compiler_finished w
  = (Raised AssertionError, with_os (set_ticks (S (ticks (os w)))) w).
Proof.
  intros H S. unfold _on_compiler_finished. unfold_monad. simpl.
  by rewrite H, S.
Qed.

Lemma run_task_frame t w : task_frame w (run_task t w).
Proof.
  unfold run_task. destruct t as [|bundle|ds| |e]; cbn [task_body].
  - destruct (_verbose (self w)) eqn:V.
    + destruct (_compilation_started (self w)) as [t0|] eqn:S.
      * rewrite (_on_compiler_finished_verbose _ t0) by done.
        repeat split; by left.
      * rewrite _on_compiler_finished_unstarted by done.
        unfold exec. rewrite _on_fatal_error_spec. cbn [fst snd].
        apply task_frame_fatal. repeat split; by left.
    + rewrite _on_compiler_finished_quiet by done. apply task_frame_refl.
  - pose proof (_on_compiler_output_frame bundle w) as F. unfold exec in *.
    destruct (_on_compiler_output bundle w) as [[[]|e] w']; cbn [snd] in *;
      [done|].
    rewrite _on_fatal_error_spec. by apply task_frame_fatal.
  - unfold _on_compiler_diagnostics. unfold bind at 1. unfold getcwd, gets.
    rewrite for_each_print. apply task_frame_stdout.
  - unfold _print_compiler_starting. unfold bind at 1. unfold gets at 1.
    destruct (_mode (self w)).
    + unfold_monad. simpl. repeat split; by left.
    + unfold bind at 1.
      rewrite (sys_stdout_write_ok _ _ _ (reset_sequence_encodable _)).
      unfold_monad. simpl. repeat split; by left.
  - rewrite _on_fatal_error_spec. apply task_frame_fatal, task_frame_refl.
Qed.

(** A callback, for its part, leaves the exit code, the standard output,
    the files and the engine alone. *)
Lemma callback_exit_code ev w :
  exit_code (reactor (exec (callback ev) w)) = exit_code (reactor w).
Proof. unfold exec. rewrite callback_spec. by destruct ev. Qed.

Lemma callback_watching ev w :
  engine_watching (exec (callback ev) w) = engine_watching w.
Proof. unfold exec. rewrite callback_spec. by destruct ev. Qed.

Lemma callback_verbose ev w :
  _verbose (self (exec (callback ev) w)) = _verbose (self w).
Proof. unfold exec. rewrite callback_spec. by destruct ev. Qed.

Lemma callback_mode ev w :
  _mode (self (exec (callback ev) w)) = _mode (self w).
Proof. unfold exec. rewrite callback_spec. by destruct ev. Qed.

Lemma step_exit_code a w :
  exit_code_kept_or_failed (exit_code (reactor w)) (exit_code (reactor (step a w))).
Proof.
  destruct a as [ev|]; simpl.
  - left. apply callback_exit_code.
  - destruct (pending (reactor w)) as [|t q] eqn:P; [by left|].
    pose proof (run_task_frame t (with_reactor (set_pending q) w)) as F.
    apply F.
Qed.

Lemma steps_snoc acts a w : steps (acts ++ [a]) w = step a (steps acts w).
Proof. unfold steps. by rewrite foldl_app. Qed.

(** Once the exit code is 1 it stays 1, whatever happens next. *)
Lemma steps_exit_failed acts w :
  exit_code (reactor w) = Some 1%Z ->
  exit_code (reactor (steps acts w)) = Some 1%Z.
Proof.
  intros H. induction acts as [|a acts IH] using rev_ind; [done|].
  rewrite steps_snoc.
  destruct (step_exit_code a (steps acts w)) as [-> | ->]; done.
Qed.

(** No notification and no task ever asks for exit code 0. *)
Lemma steps_exit_code acts w :
  exit_code_kept_or_failed (exit_code (reactor w))
    (exit_code (reactor (steps acts w))).
Proof.
  induction acts as [|a acts IH] using rev_ind; [by left|].
  rewrite steps_snoc.
  destruct (step_exit_code a (steps acts w)) as [-> | ->]; [done | by right].
Qed.


(** *** Output delivery *)

(** C1. Whenever the delivery of a bundle fails, the task handling the
    ["output"] event ends on the fatal-error path: the formatted error is
    printed and exit code 1 is requested, and from then on the exit code
    stays 1 whatever notification or task follows, so it is never 0.  With
    a file destination (a refused [open], a failed [write], a bundle UTF-8
    cannot encode) the handler catches the exception itself and returns;
    with standard output the exception leaves the handler and the reactor
    sends it down the same path. *)
Theorem output_delivery_error_is_fatal bundle w e w1 :
  (exists path,
     _output (self w) = Some path
     /\ with_open path utf8_lf (fun f => write f bundle) w = (Raised e, w1))
  \/ (_output (self w) = None
      /\ sys_stdout_write bundle w = (Raised e, w1)) ->
  run_task (task_on_compiler_output bundle) w = exec (_on_fatal_error e) w1
  /\ stdout (os (run_task (task_on_compiler_output bundle) w))
     = stdout (os w1) ++ [format_error e ++ [LF]]
  /\ exit_code (reactor (run_task (task_on_compiler_output bundle) w))
     = Some 1%Z
  /\ (forall acts,
        exit_code (reactor (steps acts
                     (run_task (task_on_compiler_output bundle) w)))
        = Some 1%Z)
  /\ (forall path,
        _output (self w) = Some path ->
        _on_compiler_output bundle w = _on_fatal_error e w1
        /\ result (_on_compiler_output bundle) w = Returned tt).
Proof.
  intros H.
  assert (E : run_task (task_on_compiler_output bundle) w = fatal e w1
              /\ forall path,
                   _output (self w) = Some path ->
                   _on_compiler_output bundle w = _on_fatal_error e w1).
  { unfold run_task. cbn [task_body].
    destruct H as [(path & Hout & Hraise) | [Hout Hraise]].
    - assert (E : _on_compiler_output bundle w = _on_fatal_error e w1).
      { rewrite (_on_compiler_output_file _ path) by done.
        unfold try_except, deliver. by rewrite Hraise. }
      split; [|done]. by rewrite E, _on_fatal_error_spec.
    - split; [|congruence].
      rewrite _on_compiler_output_stdout by done.
      by rewrite Hraise. }
  destruct E as [E Efile]. rewrite E.
  split; [done|]. split; [done|]. split; [done|]. split.
  - intros acts. by apply steps_exit_failed.
  - intros path Hout. split; [by eapply Efile|].
    by eapply _on_compiler_output_file_returns.
Qed.

(** *** Verbosity *)

Lemma _initialize_mode options w :
  _mode (self (_initialize options w))
  = (if opt_watch options then watch else build).
Proof. reflexivity. Qed.

Lemma _initialize_verbose options w :
  _verbose (self (_initialize options w))
  = (opt_watch options || opt_verbose options).
Proof. unfold _initialize; simpl. by destruct (opt_watch options). Qed.

(** C4. [_initialize] selects watch mode exactly when [-w] was given, and
    turns verbose reporting on in watch mode whatever [-v] says; in build
    mode verbose reporting is on exactly when [-v] was given. *)
Theorem verbose_policy options w :
  _mode (self (_initialize options w))
  = (if opt_watch options then watch else build)
  /\ _verbose (self (_initialize options w))
     = match _mode (self (_initialize options w)) with
       | watch => true
       | build => opt_verbose options
       end.
Proof.
  rewrite _initialize_verbose, _initialize_mode. split; [reflexivity|].
  destruct (opt_watch options); reflexivity.
Qed.

(** *** Diagnostics *)

(** C8. Handling a ["diagnostics"] event prints one line per record, in
    the order of the payload, each rendered by [format_diagnostic] against
    the current working directory; nothing else of the world changes: not
    the instance fields, not the reactor's queue, not the exit code. *)
Theorem diagnostics_printed_in_order ds w :
  _on_compiler_diagnostics ds w
  = (Returned tt,
     with_os (set_stdout
       (stdout (os w)
        ++ map (fun diag => format_diagnostic diag (cwd (os w)) ++ [LF]) ds)) w)
  /\ self (exec (_on_compiler_diagnostics ds) w) = self w
  /\ reactor (exec (_on_compiler_diagnostics ds) w) = reactor w
  /\ exit_code (reactor (run_task (task_on_compiler_diagnostics ds) w))
     = exit_code (reactor w).
Proof.
  assert (E : _on_compiler_diagnostics ds w
    = (Returned tt,
       with_os (set_stdout
         (stdout (os w)
          ++ map (fun diag => format_diagnostic diag (cwd (os w)) ++ [LF]) ds)) w)).
  { unfold _on_compiler_diagnostics. unfold bind at 1. unfold getcwd, gets.
    by rewrite for_each_print. }
  split; [exact E|]. unfold run_task, exec. cbn [task_body].
  rewrite E. by cbn [fst snd].
Qed.

(** *** Starting the engine *)

Lemma steps_cons a acts w : steps (a :: acts) w = steps acts (step a w).
Proof. reflexivity. Qed.

(** The notifications delivered during an engine call run their callbacks
    in order; none of them raises. *)
Lemma for_each_callback evs w :
  for_each evs callback w = (Returned tt, steps (map Emit evs) w).
Proof.
  revert w. induction evs as [|ev evs IH]; intros w; [reflexivity|].
  cbn [for_each map]. rewrite steps_cons. unfold bind.
  rewrite callback_spec, IH. cbn [step]. unfold exec.
  by rewrite callback_spec.
Qed.

Lemma engine_call_raises call e w :
  raised call = Some e ->
  engine_call call w = (Raised e, steps (map Emit (emitted call)) w).
Proof.
  intros H. unfold engine_call, bind. rewrite for_each_callback, H. done.
Qed.

Lemma engine_call_returns call w :
  raised call = None ->
  engine_call call w = (Returned tt, steps (map Emit (emitted call)) w).
Proof.
  intros H. unfold engine_call, bind. rewrite for_each_callback, H. done.
Qed.

Lemma steps_emit_exit_code evs w :
  exit_code (reactor (steps (map Emit evs) w)) = exit_code (reactor w).
Proof.
  revert w. induction evs as [|ev evs IH]; intros w; [done|].
  cbn [map]. rewrite steps_cons, IH. apply callback_exit_code.
Qed.

Lemma steps_emit_watching evs w :
  engine_watching (steps (map Emit evs) w) = engine_watching w.
Proof.
  revert w. induction evs as [|ev evs IH]; intros w; [done|].
  cbn [map]. rewrite steps_cons, IH. apply callback_watching.
Qed.

Lemma steps_emit_mode evs w :
  _mode (self (steps (map Emit evs) w)) = _mode (self w).
Proof.
  revert w. induction evs as [|ev evs IH]; intros w; [done|].
  cbn [map]. rewrite steps_cons, IH. apply callback_mode.
Qed.

Lemma _start_raises call e w :
  raised call = Some e ->
  _start call w
  = (Returned tt,
     enqueue [task_on_fatal_error e] (steps (map Emit (emitted call)) w)).
Proof.
  intros H. unfold _start, try_except, bind, gets, compiler_build,
    compiler_watch.
  destruct (_mode (self w)); unfold bind; by rewrite (engine_call_raises _ e).
Qed.

Lemma reactor_run_idle fuel w :
  pending (reactor w) = [] -> reactor_run fuel w = Some w.
Proof. intros H. destruct fuel; simpl; by rewrite H. Qed.

(** The run loop empties the queue; when the last task of the queue is a
    fatal-error task, the loop ends with its error as the last line printed
    and with exit code 1. *)
Lemma reactor_run_drains fuel : forall w,
  (length (pending (reactor w)) <= fuel)%nat ->
  exists w',
    reactor_run fuel w = Some w'
    /\ pending (reactor w') = []
    /\ forall q e,
         pending (reactor w) = q ++ [task_on_fatal_error e] ->
         exit_code (reactor w') = Some 1%Z
         /\ exists out, stdout (os w') = out ++ [format_error e ++ [LF]].
Proof.
  induction fuel as [|fuel IH]; intros w Hlen.
  - destruct (pending (reactor w)) as [|t q'] eqn:P; [|simpl in Hlen; lia].
    exists w. simpl. rewrite P. split; [done|]. split; [done|].
    intros q e Hq. by destruct q.
  - destruct (pending (reactor w)) as [|t q'] eqn:P.
    { exists w. simpl. rewrite P. split; [done|]. split; [done|].
      intros q e Hq. by destruct q. }
    cbn [reactor_run step]. rewrite P.
    set (w0 := with_reactor (set_pending q') w).
    destruct (run_task_frame t w0) as (_ & Hq' & _).
    change (pending (reactor w0)) with q' in Hq'.
    destruct (IH (run_task t w0)) as (w' & Hrun & Hempty & Hlast).
    { rewrite Hq'. simpl in Hlen. lia. }
    exists w'. split; [exact Hrun|]. split; [exact Hempty|].
    intros q e Hq. destruct q as [|t' q]; simplify_eq/=.
    + rewrite reactor_run_idle in Hrun by done. simplify_eq.
      unfold run_task. cbn [task_body]. rewrite _on_fatal_error_spec.
      split; [done|]. by eexists.
    + apply (Hlast q e). by rewrite Hq'.
Qed.

(** C5. In either mode, when the engine's [build] or [watch] call raises,
    [_start] catches the exception and schedules one fatal-error task behind
    whatever the call had already enqueued; it requests no exit itself and
    the engine does not start watching, so no later notification is
    delivered.  The task, when run, prints the formatted error and requests
    exit code 1; the run loop ends, with that error as the last line
    printed and with exit code 1. *)
Theorem start_failure_is_fatal call e w :
  raised call = Some e ->
  engine_watching w = false ->
  _start call w
  = (Returned tt,
     enqueue [task_on_fatal_error e] (steps (map Emit (emitted call)) w))
  /\ exit_code (reactor (exec (_start call) w)) = exit_code (reactor w)
  /\ (forall ev, enabled (Emit ev) (exec (_start call) w) = false)
  /\ (forall w', run_task (task_on_fatal_error e) w' = fatal e w'
        /\ stdout (os (fatal e w')) = stdout (os w') ++ [format_error e ++ [LF]]
        /\ exit_code (reactor (fatal e w')) = Some 1%Z)
  /\ forall fuel,
       (length (pending (reactor (exec (_start call) w))) <= fuel)%nat ->
       exists w',
         reactor_run fuel (exec (_start call) w) = Some w'
         /\ exit_code (reactor w') = Some 1%Z
         /\ exists out, stdout (os w') = out ++ [format_error e ++ [LF]].
Proof.
  intros Hr Hw. pose proof (_start_raises call e w Hr) as E.
  split; [exact E|]. unfold exec. rewrite E. cbn [snd].
  split; [unfold enqueue; simpl; by rewrite steps_emit_exit_code|].
  split; [intros ev; simpl; by rewrite steps_emit_watching|].
  split; [done|].
  intros fuel Hlen.
  destruct (reactor_run_drains fuel _ Hlen) as (w' & Hrun & _ & Hlast).
  exists w'. split; [exact Hrun|]. by eapply Hlast.
Qed.

(** In watch mode a call that returns requests no exit: the engine is
    watching from then on. *)
Lemma watch_start_keeps_running call w :
  _mode (self w) = watch ->
  raised call = None ->
  _start call w
  = (Returned tt, with_watching true (steps (map Emit (emitted call)) w))
  /\ exit_code (reactor (exec (_start call) w)) = exit_code (reactor w).
Proof.
  intros Hm Hr.
  assert (E : _start call w
    = (Returned tt, with_watching true (steps (map Emit (emitted call)) w))).
  { unfold _start, try_except, bind, gets, compiler_watch. rewrite Hm.
    unfold bind. by rewrite engine_call_returns. }
  split; [exact E|]. unfold exec. rewrite E. cbn [snd]. simpl.
  apply steps_emit_exit_code.
Qed.

(** C6. In build mode, when the engine's [build] call returns, [_start]
    requests exit code 0 right after it, behind the notifications of the
    pass; this is the only place exit code 0 comes from: no notification and
    no task (the ["finished"] one included) ever sets it. *)
Theorem build_completion_exits_zero call w :
  _mode (self w) = build ->
  raised call = None ->
  _start call w
  = (Returned tt,
     with_reactor (set_exit_code (Some 0%Z)) (steps (map Emit (emitted call)) w))
  /\ exit_code (reactor (exec (_start call) w)) = Some 0%Z
  /\ (forall w', exit_code (reactor (exec (callback finished) w'))
                 = exit_code (reactor w'))
  /\ forall acts w',
       exit_code (reactor (steps acts w')) = Some 0%Z ->
       exit_code (reactor w') = Some 0%Z.
Proof.
  intros Hm Hr.
  assert (E : _start call w
    = (Returned tt,
       with_reactor (set_exit_code (Some 0%Z))
         (steps (map Emit (emitted call)) w))).
  { unfold _start, try_except, bind, gets, compiler_build. rewrite Hm.
    by rewrite engine_call_returns. }
  split; [exact E|]. unfold exec at 1. rewrite E. cbn [snd].
  split; [reflexivity|]. split.
  - intros w'. apply callback_exit_code.
  - intros acts w' H0.
    destruct (steps_exit_code acts w') as [Hk|Hk]; congruence.
Qed.


(** *** The file sink *)

(** Opening takes a descriptor that was not in use and empties the file. *)
Lemma open_w_acquires path layer w :
  faults (os w) (io_ops (os w)) = None ->
  exists f w1,
    open_w path layer w = (Returned f, w1)
    /\ h_layer f = layer
    /\ (h_fd f ∉ open_fds (os w))
    /\ open_fds (os w1) = {[h_fd f]} ∪ open_fds (os w)
    /\ files (os w1) !! path = Some [].
Proof.
  intros H. unfold open_w. unfold_monad. simpl. rewrite H. simpl.
  eexists _, _. split; [reflexivity|]. simpl.
  repeat split; [apply is_fresh | apply lookup_insert_eq].
Qed.

Lemma deliver_releases path bundle w :
  open_fds (os (exec (deliver path bundle) w)) = open_fds (os w).
Proof.
  unfold exec.
  destruct (deliver_cases path bundle w)
    as [[e ->]|[(e & c & k & ->)|(c & k & ->)]]; reflexivity.
Qed.

Lemma _on_compiler_output_file_ok bundle path w bs :
  _output (self w) = Some path ->
  faults (os w) (io_ops (os w)) = None ->
  faults (os w) (S (io_ops (os w))) = None ->
  encode Utf8 bundle = Some bs ->
  _on_compiler_output bundle w = (Returned tt, delivered path bs 2 w).
Proof.
  intros Hout H F E. rewrite (_on_compiler_output_file _ path) by done.
  unfold try_except. by rewrite (deliver_ok path bundle w bs).
Qed.

Lemma delivered_lookup path content k w :
  files (os (delivered path content k w)) !! path = Some content.
Proof. simpl. apply lookup_insert_eq. Qed.

(** C7. With a file destination, handling ["output"] is one [with] block
    inside a [try]: the destination is opened for writing as UTF-8 text with
    ["\n"] kept as the line ending, the whole bundle is written, and the
    descriptor the [open] took is given back on every way out (a refused
    [open], an encoding error, a failed [write], success), so the set of
    open descriptors is what it was.  When nothing fails the file holds
    exactly the UTF-8 bytes of the bundle. *)
Theorem output_file_scoped bundle path w :
  _output (self w) = Some path ->
  _on_compiler_output bundle w
  = try_except (with_open path utf8_lf (fun f => write f bundle))
      _on_fatal_error w
  /\ layer_bytes utf8_lf bundle = encode Utf8 bundle
  /\ open_fds (os (exec (with_open path utf8_lf (fun f => write f bundle)) w))
     = open_fds (os w)
  /\ open_fds (os (exec (_on_compiler_output bundle) w)) = open_fds (os w)
  /\ result (_on_compiler_output bundle) w = Returned tt
  /\ forall bs,
       faults (os w) (io_ops (os w)) = None ->
       faults (os w) (S (io_ops (os w))) = None ->
       encode Utf8 bundle = Some bs ->
       result (with_open path utf8_lf (fun f => write f bundle)) w = Returned tt
       /\ files (os (exec (_on_compiler_output bundle) w)) !! path = Some bs.
Proof.
  intros Hout.
  split; [by apply _on_compiler_output_file|].
  split; [apply utf8_lf_bytes|].
  split; [apply deliver_releases|].
  split; [apply _on_compiler_output_frame|].
  split; [by eapply _on_compiler_output_file_returns|].
  intros bs H F E. split.
  - pose proof (deliver_ok path bundle w bs H E F) as D. unfold deliver in D.
    unfold result. by rewrite D.
  - unfold exec. rewrite (_on_compiler_output_file_ok _ path _ bs) by done.
    apply delivered_lookup.
Qed.

(** C10. With a file destination, the [open] empties the file before a
    single byte of the bundle is written.  When the [write] then fails after
    [n] bytes, the handler leaves the file with those [n] bytes only: what
    the file held before is gone and is not put back, while the error goes
    down the fatal-error path (exit code 1). *)
Theorem failed_write_loses_previous_contents bundle path w bs e n old :
  _output (self w) = Some path ->
  files (os w) !! path = Some old ->
  faults (os w) (io_ops (os w)) = None ->
  encode Utf8 bundle = Some bs ->
  faults (os w) (S (io_ops (os w))) = Some (e, n) ->
  files (os (exec (open_w path utf8_lf) w)) !! path = Some []
  /\ files (os (exec (_on_compiler_output bundle) w)) !! path = Some (take n bs)
  /\ (old <> take n bs ->
      files (os (exec (_on_compiler_output bundle) w)) !! path <> Some old)
  /\ exit_code (reactor (exec (_on_compiler_output bundle) w)) = Some 1%Z.
Proof.
  intros Hout Hold H E F.
  split.
  { destruct (open_w_acquires path utf8_lf w H) as (f & w1 & Ho & _ & _ & _ & Hf).
    unfold exec. by rewrite Ho. }
  pose proof (deliver_write_fault path bundle w bs e n H E F) as D.
  assert (Hf : files (os (exec (_on_compiler_output bundle) w)) !! path
               = Some (take n bs)).
  { unfold exec. rewrite (_on_compiler_output_file _ path) by done.
    unfold try_except. rewrite D, _on_fatal_error_spec. simpl.
    apply lookup_insert_eq. }
  split; [exact Hf|]. split.
  - intros Hne. rewrite Hf. congruence.
  - unfold exec. rewrite (_on_compiler_output_file _ path) by done.
    unfold try_except. by rewrite D, _on_fatal_error_spec.
Qed.

(** C2, as the code has it.  Either sink is handed the bundle text as it
    is.  The file always gets its UTF-8 bytes with ["\n"] kept; standard
    output gets the bytes of its own text layer, which are the same when
    that layer is UTF-8 with ["\n"] kept as well. *)
Theorem sinks_agree_on_utf8_lf_stdout bundle path wf wo bs :
  _output (self wf) = Some path ->
  _output (self wo) = None ->
  faults (os wf) (io_ops (os wf)) = None ->
  faults (os wf) (S (io_ops (os wf))) = None ->
  encode Utf8 bundle = Some bs ->
  stdout (os wo) = [] ->
  stdout_layer (os wo) = utf8_lf ->
  stdout (os (exec (_on_compiler_output bundle) wo)) = [bundle]
  /\ files (os (exec (_on_compiler_output bundle) wf)) !! path = Some bs
  /\ stdout_bytes (exec (_on_compiler_output bundle) wo) = Some bs.
Proof.
  intros Hf Ho H F E Hempty Hlayer.
  assert (Hs : stdout (os (exec (_on_compiler_output bundle) wo)) = [bundle]).
  { unfold exec. rewrite _on_compiler_output_stdout by done.
    rewrite (sys_stdout_write_ok _ _ bs)
      by (by rewrite Hlayer, utf8_lf_bytes).
    simpl. by rewrite Hempty. }
  split; [exact Hs|]. split.
  - unfold exec. rewrite (_on_compiler_output_file_ok _ path _ bs) by done.
    apply delivered_lookup.
  - unfold stdout_bytes. rewrite Hs.
    assert (Hl : stdout_layer (os (exec (_on_compiler_output bundle) wo))
                 = utf8_lf).
    { unfold exec. rewrite _on_compiler_output_stdout by done.
      rewrite (sys_stdout_write_ok _ _ bs)
        by (by rewrite Hlayer, utf8_lf_bytes).
      exact Hlayer. }
    rewrite Hl. simpl concat. rewrite app_nil_r, utf8_lf_bytes. exact E.
Qed.

(** *** Who touches the state *)

(** C3, as the code has it.  The callbacks for ["finished"], ["output"]
    and ["diagnostics"] do nothing but enqueue one task.  The callback for
    ["starting"] is the handler itself: it reads the clock and stores the
    start timestamp at once, in the callback, and enqueues only the printing
    of the progress line, and that only when verbose. *)
Theorem callbacks_schedule_except_starting w :
  callback finished w = schedule task_on_compiler_finished w
  /\ (forall bundle,
        callback (output bundle) w = schedule (task_on_compiler_output bundle) w)
  /\ (forall ds,
        callback (diagnostics ds) w
        = schedule (task_on_compiler_diagnostics ds) w)
  /\ callback starting w
     = (Returned tt,
        if _verbose (self w)
        then exec (schedule task_print_compiler_starting) (started_now w)
        else started_now w)
  /\ _compilation_started (self (exec (callback starting) w))
     = Some (clock (os w) (ticks (os w))).
Proof.
  split; [reflexivity|]. split; [reflexivity|]. split; [reflexivity|].
  split.
  - rewrite callback_starting. destruct (_verbose (self w)); simpl; [done|].
    by rewrite enqueue_nil.
  - unfold exec. rewrite callback_starting. by destruct (_verbose (self w)).
Qed.

(** *** The start timestamp *)

Lemma step_app a w :
  self (step a w) = self w
  \/ exists t, self (step a w) = set_compilation_started (Some t) (self w).
Proof.
  destruct a as [ev|]; cbn [step].
  - unfold exec. rewrite callback_spec. destruct ev; simpl; eauto.
  - destruct (pending (reactor w)) as [|t q]; [by left|].
    left. by destruct (run_task_frame t (with_reactor (set_pending q) w)) as [-> _].
Qed.

Lemma steps_started acts w :
  is_Some (_compilation_started (self w)) ->
  is_Some (_compilation_started (self (steps acts w))).
Proof.
  intros H. induction acts as [|a acts IH] using rev_ind; [done|].
  rewrite steps_snoc.
  destruct (step_app a (steps acts w)) as [-> | [t ->]]; [done | by eexists].
Qed.

Lemma steps_verbose acts w :
  _verbose (self (steps acts w)) = _verbose (self w).
Proof.
  induction acts as [|a acts IH] using rev_ind; [done|].
  rewrite steps_snoc.
  destruct (step_app a (steps acts w)) as [-> | [t ->]]; done.
Qed.

(** C9. Once the ["starting"] callback has run, the start timestamp is
    set and nothing unsets it: after any further notifications and tasks the
    ["finished"] handler returns without raising (its assertion holds), and
    running it as a task leaves the exit code alone.  And when verbose
    reporting is off, as in build mode without [-v], the handler does
    nothing at all: it reads neither the clock nor the timestamp, which may
    still be unset. *)
Theorem finished_assertion_holds acts w :
  is_Some (_compilation_started
             (self (steps acts (exec (callback starting) w))))
  /\ result _on_compiler_finished (steps acts (exec (callback starting) w))
     = Returned tt
  /\ exit_code (reactor (run_task task_on_compiler_finished
                           (steps acts (exec (callback starting) w))))
     = exit_code (reactor (steps acts (exec (callback starting) w)))
  /\ forall options w0 acts',
       opt_watch options = false ->
       opt_verbose options = false ->
       _on_compiler_finished (steps acts' (_initialize options w0))
       = (Returned tt, steps acts' (_initialize options w0)).
Proof.
  set (w2 := steps acts (exec (callback starting) w)).
  assert (Hs : is_Some (_compilation_started (self w2))).
  { apply steps_started. unfold exec. rewrite callback_starting.
    destruct (_verbose (self w)); by eexists. }
  assert (Hr : exists w3, _on_compiler_finished w2 = (Returned tt, w3)
                          /\ exit_code (reactor w3) = exit_code (reactor w2)).
  { destruct Hs as [t0 Ht0]. destruct (_verbose (self w2)) eqn:V.
    - rewrite (_on_compiler_finished_verbose _ t0) by done. by eexists.
    - rewrite _on_compiler_finished_quiet by done. by eexists. }
  destruct Hr as (w3 & Hr & Hx).
  split; [exact Hs|]. split; [unfold result; by rewrite Hr|]. split.
  - unfold run_task. cbn [task_body]. by rewrite Hr.
  - intros options w0 acts' Hw Hv. apply _on_compiler_finished_quiet.
    by rewrite steps_verbose, _initialize_verbose, Hw, Hv.
Qed.

(** ** Further properties of the module *)

(** *** [_start] as a whole *)

Lemma _start_build_returns call w :
  _mode (self w) = build ->
  raised call = None ->
  _start call w
  = (Returned tt,
     with_reactor (set_exit_code (Some 0%Z)) (steps (map Emit (emitted call)) w)).
Proof.
  intros Hm Hr. unfold _start, try_except, bind, gets, compiler_build.
  rewrite Hm. by rewrite engine_call_returns.
Qed.

(** The three ways [_start] can go. *)
Lemma _start_cases call w :
  (exists e, raised call = Some e
     /\ _start call w
        = (Returned tt,
           enqueue [task_on_fatal_error e] (steps (map Emit (emitted call)) w)))
  \/ (raised call = None /\ _mode (self w) = build
      /\ _start call w
         = (Returned tt,
            with_reactor (set_exit_code (Some 0%Z))
              (steps (map Emit (emitted call)) w)))
  \/ (raised call = None /\ _mode (self w) = watch
      /\ _start call w
         = (Returned tt,
            with_watching true (steps (map Emit (emitted call)) w))).
Proof.
  destruct (raised call) as [e|] eqn:Hr.
  { left. exists e. split; [done|]. by apply _start_raises. }
  right. destruct (_mode (self w)) eqn:Hm.
  - left. split; [done|]. split; [done|]. by apply _start_build_returns.
  - right. split; [done|]. split; [done|].
    by apply watch_start_keeps_running.
Qed.

(** However many notifications a call delivers, their callbacks return,
    print nothing, touch no file and only add to the queue. *)
Lemma for_each_callback_quiet evs : forall w,
  result (for_each evs callback) w = Returned tt
  /\ stdout (os (exec (for_each evs callback) w)) = stdout (os w)
  /\ files (os (exec (for_each evs callback) w)) = files (os w)
  /\ open_fds (os (exec (for_each evs callback) w)) = open_fds (os w)
  /\ (length (pending (reactor w))
      <= length (pending (reactor (exec (for_each evs callback) w))))%nat.
Proof.
  induction evs as [|ev evs IH]; intros w; [done|].
  unfold result, exec in *. cbn [for_each]. unfold bind.
  rewrite callback_spec.
  destruct (IH (enqueue (scheduled_by (_verbose (self w)) ev)
                  match ev with starting => started_now w | _ => w end))
    as (-> & -> & -> & -> & Hlen).
  split; [done|].
  repeat split; try (by destruct ev).
  etrans; [|exact Hlen]. destruct ev; simpl; rewrite length_app; lia.
Qed.


(** X2. In watch mode exit code 0 is never requested: after [_start] and
    any notifications and tasks, the exit code is what it was before, or 1. *)
Theorem watch_never_exits_zero call acts w :
  _mode (self w) = watch ->
  exit_code_kept_or_failed (exit_code (reactor w))
    (exit_code (reactor (steps acts (exec (_start call) w)))).
Proof.
  intros Hm.
  assert (E : exit_code (reactor (exec (_start call) w))
              = exit_code (reactor w)).
  { unfold exec.
    destruct (_start_cases call w)
      as [(e & _ & ->) | [(_ & Hb & _) | (_ & _ & ->)]]; [| congruence |];
      cbn [snd]; simpl; apply steps_emit_exit_code. }
  rewrite <- E. apply steps_exit_code.
Qed.

(** *** The configuration is read-only *)

(** The fields [_initialize] derives from the command line. *)
Definition configuration (a : App) : str * option str * Mode * bool * list (str * str) :=
  (_module a, _output a, _mode a, _verbose a, _compiler_options a).

Lemma configuration_set_started t a :
  configuration (set_compilation_started t a) = configuration a.
Proof. reflexivity. Qed.

Lemma steps_configuration acts w :
  configuration (self (steps acts w)) = configuration (self w).
Proof.
  induction acts as [|a acts IH] using rev_ind; [done|].
  rewrite steps_snoc.
  destruct (step_app a (steps acts w)) as [-> | [t ->]]; done.
Qed.

Lemma _start_self call w :
  self (exec (_start call) w) = self (steps (map Emit (emitted call)) w).
Proof.
  unfold exec.
  destruct (_start_cases call w)
    as [(e & _ & ->) | [(_ & _ & ->) | (_ & _ & ->)]]; reflexivity.
Qed.

(** X3. Once [_initialize] has run, the module path, the destination, the
    mode, the verbosity and the compiler options never change again:
    [_start] and every notification and task leave them as they are. *)
Theorem configuration_is_read_only call acts w :
  configuration (self (steps acts (exec (_start call) w)))
  = configuration (self w).
Proof.
  by rewrite steps_configuration, _start_self, steps_configuration.
Qed.

(** *** Notifications reach the reactor in order *)

Lemma steps_emit_verbose evs w :
  _verbose (self (steps (map Emit evs) w)) = _verbose (self w).
Proof.
  pose proof (steps_configuration (map Emit evs) w) as H.
  unfold configuration in H. congruence.
Qed.

(** X4. The callbacks keep the order of the notifications: after the
    engine has delivered [evs], the queue is the old queue followed by the
    tasks of [evs] in the same order, one per ["finished"], ["output"] and
    ["diagnostics"] with its payload, and one per ["starting"] when
    verbose (none otherwise).  Nothing is dropped, doubled or reordered. *)
Theorem notifications_enqueued_in_order evs w :
  pending (reactor (steps (map Emit evs) w))
  = pending (reactor w)
    ++ concat (map (fun ev =>
         match ev with
         | starting =>
             if _verbose (self w) then [task_print_compiler_starting] else []
         | finished => [task_on_compiler_finished]
         | output bundle => [task_on_compiler_output bundle]
         | diagnostics ds => [task_on_compiler_diagnostics ds]
         end) evs).
Proof.
  revert w. induction evs as [|ev evs IH]; intros w.
  { simpl. by rewrite app_nil_r. }
  cbn [map concat]. rewrite steps_cons, IH. cbn [step].
  rewrite callback_verbose. unfold exec. rewrite callback_spec.
  rewrite app_assoc. f_equal. by destruct ev.
Qed.

(** *** Callbacks defer all output *)

(** What a callback may do to the operating system: nothing but read the
    clock. *)
Lemma callback_os ev w :
  os (exec (callback ev) w) = os w
  \/ os (exec (callback ev) w) = set_ticks (S (ticks (os w))) (os w).
Proof.
  unfold exec. rewrite callback_spec. destruct ev; simpl; eauto.
Qed.

Lemma steps_emit_quiet evs w :
  stdout (os (steps (map Emit evs) w)) = stdout (os w)
  /\ files (os (steps (map Emit evs) w)) = files (os w)
  /\ open_fds (os (steps (map Emit evs) w)) = open_fds (os w)
  /\ io_ops (os (steps (map Emit evs) w)) = io_ops (os w).
Proof.
  revert w. induction evs as [|ev evs IH]; intros w; [done|].
  cbn [map]. rewrite steps_cons. cbn [step].
  destruct (IH (exec (callback ev) w)) as (-> & -> & -> & ->).
  destruct (callback_os ev w) as [-> | ->]; done.
Qed.

(** X14. [_start] itself prints nothing and writes no file, however many
    notifications the engine delivers during the call: standard output, the
    files and the open descriptors are what they were; everything visible
    happens later, in tasks. *)
Theorem start_defers_output call w :
  stdout (os (exec (_start call) w)) = stdout (os w)
  /\ files (os (exec (_start call) w)) = files (os w)
  /\ open_fds (os (exec (_start call) w)) = open_fds (os w)
  /\ (length (pending (reactor w))
      <= length (pending (reactor (exec (_start call) w))))%nat.
Proof.
  pose proof (for_each_callback_quiet (emitted call) w)
    as (H & Hout & Hfiles & Hfds & Hlen).
  unfold result, exec, _start, try_except, bind, gets, compiler_build,
    compiler_watch, engine_call, bind in *.
  destruct (_mode (self w)); cbn beta iota;
    (destruct (for_each (emitted call) callback w) as [[[]|e] w1];
     simpl in H; [|discriminate]); cbn [snd] in *;
    destruct (raised call); simpl;
    rewrite ?length_app; repeat split; try done; simpl; lia.
Qed.

(** X5. No descriptor is ever left open: after [_start] and any
    notifications and tasks, whatever fails on the way, the set of open
    descriptors is what it was. *)
Theorem no_descriptor_leak call acts w :
  open_fds (os (steps acts (exec (_start call) w))) = open_fds (os w).
Proof.
  assert (Hstep : forall a w0, open_fds (os (step a w0)) = open_fds (os w0)).
  { intros [ev|] w0; cbn [step].
    - by destruct (callback_os ev w0) as [-> | ->].
    - destruct (pending (reactor w0)) as [|t q]; [done|].
      by destruct (run_task_frame t (with_reactor (set_pending q) w0))
        as (_ & _ & _ & -> & _). }
  induction acts as [|a acts IH] using rev_ind.
  - simpl. unfold exec.
    destruct (_start_cases call w)
      as [(e & _ & ->) | [(_ & _ & ->) | (_ & _ & ->)]]; cbn [snd]; simpl;
      apply steps_emit_quiet.
  - by rewrite steps_snoc, Hstep.
Qed.

(** *** The clock and the start timestamp *)

(** What no step changes of the operating system: the working directory,
    the faults to come, the clock and the text layer of standard output; the
    number of clock readings only grows. *)
Definition os_static (w w' : World) : Prop :=
  cwd (os w') = cwd (os w)
  /\ faults (os w') = faults (os w)
  /\ clock (os w') = clock (os w)
  /\ stdout_layer (os w') = stdout_layer (os w)
  /\ (ticks (os w) <= ticks (os w'))%nat.

Lemma os_static_refl w : os_static w w.
Proof. repeat split; done. Qed.

Lemma os_static_trans w1 w2 w3 :
  os_static w1 w2 -> os_static w2 w3 -> os_static w1 w3.
Proof.
  intros (? & ? & ? & ? & ?) (? & ? & ? & ? & ?).
  repeat split; try congruence. lia.
Qed.

Lemma os_static_fatal e w w' : os_static w w' -> os_static w (fatal e w').
Proof. intros H. exact H. Qed.

Lemma os_static_tick w :
  os_static w (with_os (set_ticks (S (ticks (os w)))) w).
Proof. repeat split; simpl; try done. lia. Qed.

Lemma _on_compiler_output_static bundle w :
  os_static w (exec (_on_compiler_output bundle) w).
Proof.
  destruct (_output (self w)) as [path|] eqn:Hout.
  - unfold exec. rewrite (_on_compiler_output_file _ path) by done.
    unfold try_except.
    destruct (deliver_cases path bundle w)
      as [[e ->]|[(e & c & k & ->)|(c & k & ->)]];
      rewrite ?_on_fatal_error_spec; cbn [snd]; repeat split; done.
  - unfold exec. rewrite _on_compiler_output_stdout by done.
    destruct (sys_stdout_write_cases bundle w) as [-> | ->]; cbn [snd];
      repeat split; done.
Qed.

Lemma _print_compiler_starting_spec w :
  _print_compiler_starting w
  = (Returned tt,
     with_os (set_stdout
       (stdout (os w)
        ++ match _mode (self w) with
           | watch => [[ESC; 99]]
           | build => []
           end
        ++ [format_compiling (_module (self w)) (cwd (os w)) ++ [LF]])) w).
Proof.
  unfold _print_compiler_starting. unfold bind at 1. unfold gets at 1.
  destruct (_mode (self w)).
  - reflexivity.
  - unfold bind at 1.
    rewrite (sys_stdout_write_ok _ _ _ (reset_sequence_encodable _)).
    unfold_monad. unfold modify, print_text. simpl. f_equal.
    unfold with_os, set_stdout; simpl. by rewrite <- app_assoc.
Qed.

Lemma _on_compiler_diagnostics_spec ds w :
  _on_compiler_diagnostics ds w
  = (Returned tt,
     with_os (set_stdout
       (stdout (os w)
        ++ map (fun diag => format_diagnostic diag (cwd (os w)) ++ [LF]) ds)) w).
Proof.
  unfold _on_compiler_diagnostics. unfold bind at 1. unfold getcwd, gets.
  by rewrite for_each_print.
Qed.

Lemma run_task_static t w : os_static w (run_task t w).
Proof.
  unfold run_task. destruct t as [|bundle|ds| |e]; cbn [task_body].
  - destruct (_verbose (self w)) eqn:V.
    + destruct (_compilation_started (self w)) as [t0|] eqn:S.
      * rewrite (_on_compiler_finished_verbose _ t0) by done.
        repeat split; simpl; try done. lia.
      * rewrite _on_compiler_finished_unstarted by done.
        unfold exec. rewrite _on_fatal_error_spec. cbn [snd].
        repeat split; simpl; try done. lia.
    + rewrite _on_compiler_finished_quiet by done. apply os_static_refl.
  - pose proof (_on_compiler_output_static bundle w) as F. unfold exec in *.
    destruct (_on_compiler_output bundle w) as [[[]|e] w']; cbn [snd] in *;
      [done|].
    rewrite _on_fatal_error_spec. exact F.
  - rewrite _on_compiler_diagnostics_spec. repeat split; done.
  - rewrite _print_compiler_starting_spec. repeat split; done.
  - rewrite _on_fatal_error_spec. repeat split; done.
Qed.

Lemma step_static a w : os_static w (step a w).
Proof.
  destruct a as [ev|]; cbn [step].
  - destruct (callback_os ev w) as [E | E]; unfold os_static; rewrite E;
      repeat split; simpl; try done; lia.
  - destruct (pending (reactor w)) as [|t q]; [apply os_static_refl|].
    apply (run_task_static t (with_reactor (set_pending q) w)).
Qed.

Lemma steps_static acts w : os_static w (steps acts w).
Proof.
  induction acts as [|a acts IH] using rev_ind; [apply os_static_refl|].
  rewrite steps_snoc. eapply os_static_trans; [exact IH | apply step_static].
Qed.

(** The stored start timestamp stays a reading the clock gave earlier,
    no older than reading number [n] once it is that recent. *)
Lemma steps_stamp_since acts w n :
  (exists i, (n <= i < ticks (os w))%nat
             /\ _compilation_started (self w) = Some (clock (os w) i)) ->
  exists i, (n <= i < ticks (os (steps acts w)))%nat
            /\ _compilation_started (self (steps acts w))
               = Some (clock (os w) i).
Proof.
  intros H0. induction acts as [|a acts IH] using rev_ind; [exact H0|].
  rewrite steps_snoc. destruct IH as (i & Hi & Hst).
  pose proof (steps_static acts w) as (_ & _ & Hcl & _ & _).
  pose proof (step_static a (steps acts w)) as (_ & _ & _ & _ & Ht).
  destruct a as [ev|]; cbn [step] in *.
  - unfold exec in *. rewrite callback_spec in *.
    destruct ev; simpl in *;
      [exists (ticks (os (steps acts w))); rewrite Hcl; split; [lia | done]
      | exists i; split; [lia | done] ..].
  - destruct (pending (reactor (steps acts w))) as [|t q];
      [exists i; split; [lia | done]|].
    destruct (run_task_frame t (with_reactor (set_pending q) (steps acts w)))
      as [-> _].
    exists i. split; [lia | exact Hst].
Qed.

(** X6. The timing report is made of two readings of the same clock, the
    start one taken strictly before the end one: once ["starting"] was
    notified, after any further notifications and tasks, a verbose
    ["finished"] handler reads the clock once more and prints
    [format_compiled] of the stored reading, number [i], and of the new
    reading, whose number is greater than [i]. *)
Theorem timing_report_readings acts w :
  _verbose (self w) = true ->
  exists i,
    (i < ticks (os (steps acts (exec (callback starting) w))))%nat
    /\ (ticks (os w) <= i)%nat
    /\ _on_compiler_finished (steps acts (exec (callback starting) w))
       = (Returned tt,
          with_os (fun o =>
            set_stdout
              (stdout o
               ++ [format_compiled (_module (self w)) (cwd (os w))
                     (clock (os w) i) (clock (os w) (ticks o)) ++ [LF]])
              (set_ticks (S (ticks o)) o))
            (steps acts (exec (callback starting) w))).
Proof.
  intros V.
  assert (H1 : os_static w (exec (callback starting) w)
               /\ configuration (self (exec (callback starting) w))
                  = configuration (self w)
               /\ exists i,
                    (ticks (os w) <= i
                     < ticks (os (exec (callback starting) w)))%nat
                    /\ _compilation_started (self (exec (callback starting) w))
                       = Some (clock (os (exec (callback starting) w)) i)).
  { unfold exec. rewrite callback_starting. rewrite V. simpl.
    split; [repeat split; simpl; try done; lia|]. split; [done|].
    exists (ticks (os w)). split; [lia | done]. }
  destruct H1 as (Hs1 & Hc1 & Hstamp).
  apply (steps_stamp_since acts) in Hstamp. destruct Hstamp as (i & [Hlo Hhi] & Hst).
  pose proof (os_static_trans _ _ _ Hs1
                (steps_static acts (exec (callback starting) w)))
    as (Hcwd & _ & Hclock & _ & _).
  destruct Hs1 as (_ & _ & Hclock1 & _ & _). rewrite Hclock1 in Hst.
  pose proof (steps_configuration acts (exec (callback starting) w)) as Hc2.
  rewrite Hc1 in Hc2. unfold configuration in Hc2.
  exists i. split; [exact Hhi|]. split; [exact Hlo|].
  rewrite (_on_compiler_finished_verbose _ (clock (os w) i))
    by (done || congruence).
  f_equal. unfold with_os. f_equal.
  assert (Hm : _module (self (steps acts (exec (callback starting) w)))
               = _module (self w)) by congruence.
  by rewrite Hm, Hcwd, Hclock.
Qed.

(** *** The progress line *)


(** *** The two sinks *)


(** X9. With a file destination the bundle never shows on standard
    output and no other file is touched: whatever happens, standard output
    is left as it was or gains the one line of the error, and every file but
    the destination keeps its contents. *)
Theorem file_sink_confined bundle path w :
  _output (self w) = Some path ->
  (stdout (os (exec (_on_compiler_output bundle) w)) = stdout (os w)
   \/ exists e,
        stdout (os (exec (_on_compiler_output bundle) w))
        = stdout (os w) ++ [format_error e ++ [LF]])
  /\ forall other,
       other <> path ->
       files (os (exec (_on_compiler_output bundle) w)) !! other
       = files (os w) !! other.
Proof.
  intros Hout. unfold exec.
  rewrite (_on_compiler_output_file _ path) by done. unfold try_except.
  destruct (deliver_cases path bundle w)
    as [[e ->]|[(e & c & k & ->)|(c & k & ->)]];
    rewrite ?_on_fatal_error_spec; cbn [snd]; simpl.
  - split; [right; by exists e | done].
  - split; [right; by exists e|].
    intros other Hne. by rewrite lookup_insert_ne.
  - split; [by left|].
    intros other Hne. by rewrite lookup_insert_ne.
Qed.

(** X10. Bundles that follow one another, as in watch mode: the file
    holds the latest bundle only (each delivery starts from an empty file),
    while standard output holds them all, in order. *)
Theorem later_bundle_replaces_earlier b1 b2 bs1 bs2 path wf wo :
  _output (self wf) = Some path ->
  (forall k, faults (os wf) k = None) ->
  encode Utf8 b1 = Some bs1 ->
  encode Utf8 b2 = Some bs2 ->
  _output (self wo) = None ->
  is_Some (layer_bytes (stdout_layer (os wo)) b1) ->
  is_Some (layer_bytes (stdout_layer (os wo)) b2) ->
  files (os (exec (_on_compiler_output b2)
               (exec (_on_compiler_output b1) wf))) !! path
  = Some bs2
  /\ stdout (os (exec (_on_compiler_output b2)
                   (exec (_on_compiler_output b1) wo)))
     = stdout (os wo) ++ [b1; b2].
Proof.
  intros Hf Hfl E1 E2 Ho [c1 L1] [c2 L2]. split.
  - unfold exec at 2.
    rewrite (_on_compiler_output_file_ok _ path _ bs1) by done. cbn [snd].
    unfold exec.
    rewrite (_on_compiler_output_file_ok _ path _ bs2) by (simpl; done).
    apply delivered_lookup.
  - unfold exec at 2. rewrite _on_compiler_output_stdout by done.
    rewrite (sys_stdout_write_ok _ _ c1) by done. cbn [snd].
    unfold exec. rewrite _on_compiler_output_stdout by done.
    rewrite (sys_stdout_write_ok _ _ c2) by done. simpl.
    by rewrite <- app_assoc.
Qed.

(** *** Diagnostics in batches *)

(** X11. An empty batch of diagnostics changes nothing, and a batch
    handled in two parts prints what it prints when handled at once. *)
Theorem diagnostics_batches ds1 ds2 w :
  exec (_on_compiler_diagnostics []) w = w
  /\ exec (_on_compiler_diagnostics (ds1 ++ ds2)) w
     = exec (_on_compiler_diagnostics ds2)
         (exec (_on_compiler_diagnostics ds1) w).
Proof.
  unfold exec. rewrite !_on_compiler_diagnostics_spec. cbn [snd]. split.
  - destruct_world w. unfold with_os, set_stdout; simpl. by rewrite app_nil_r.
  - unfold with_os, set_stdout; simpl. by rewrite map_app, app_assoc.
Qed.

(** *** A whole quiet build *)



(** *** What the file sink can encode *)

(** The code points UTF-8 encodes: all but the surrogates, up to U+10FFFF. *)
Definition scalar_value (c : N) : bool :=
  (c <? 0xD800) || ((0xDFFF <? c) && (c <? 0x110000)).

Lemma utf8_encode_char_scalar c :
  is_Some (utf8_encode_char c) <-> scalar_value c = true.
Proof.
  unfold utf8_encode_char, scalar_value.
  repeat match goal with
         | |- context [N.ltb ?a ?b] => destruct (N.ltb_spec a b)
         | |- context [N.leb ?a ?b] => destruct (N.leb_spec a b)
         end; simpl; split; intros Hx; try done; try lia; try (by eexists);
    by destruct Hx.
Qed.

Lemma utf8_encode_char_length c bs :
  utf8_encode_char c = Some bs -> (1 <= length bs <= 4)%nat.
Proof.
  unfold utf8_encode_char. intros H.
  repeat match type of H with
         | context [if ?b then _ else _] => destruct b
         end; simplify_eq; simpl; lia.
Qed.

Lemma encode_utf8_scalar s :
  is_Some (encode Utf8 s) <-> forallb scalar_value s = true.
Proof.
  induction s as [|c s IH]; simpl; [split; [done | by eexists]|].
  rewrite andb_true_iff, <- IH, <- utf8_encode_char_scalar.
  destruct (utf8_encode_char c) as [bs|]; destruct (encode Utf8 s) as [rest|];
    split; try (intros [[? ?] [? ?]]; done); try (intros [? ?]; done);
    intros _; try split; by eexists.
Qed.

Lemma encode_utf8_length s bs :
  encode Utf8 s = Some bs -> (length s <= length bs <= 4 * length s)%nat.
Proof.
  revert bs. induction s as [|c s IH]; intros bs H; simpl in *.
  - simplify_eq. simpl. lia.
  - destruct (utf8_encode_char c) as [cs|] eqn:Ec; [|done].
    destruct (encode Utf8 s) as [rest|]; [|done]. simplify_eq.
    pose proof (utf8_encode_char_length c cs Ec).
    pose proof (IH rest eq_refl). rewrite length_app. lia.
Qed.

(** X13. When the system lets the [open] and the [write] through, the
    file sink fails exactly on a bundle that holds a code point UTF-8 cannot
    encode (a lone surrogate): then the destination is left empty, the one
    line of the [UnicodeEncodeError] is printed and exit code 1 is requested.
    Otherwise the file gets between one and four bytes per code point, and
    standard output and the exit code are left alone. *)
Theorem file_sink_fails_on_surrogates_only bundle path w :
  _output (self w) = Some path ->
  faults (os w) (io_ops (os w)) = None ->
  faults (os w) (S (io_ops (os w))) = None ->
  if forallb scalar_value bundle
  then exists bs,
         files (os (exec (_on_compiler_output bundle) w)) !! path = Some bs
         /\ (length bundle <= length bs <= 4 * length bundle)%nat
         /\ stdout (os (exec (_on_compiler_output bundle) w)) = stdout (os w)
         /\ exit_code (reactor (exec (_on_compiler_output bundle) w))
            = exit_code (reactor w)
  else files (os (exec (_on_compiler_output bundle) w)) !! path = Some []
       /\ stdout (os (exec (_on_compiler_output bundle) w))
          = stdout (os w) ++ [format_error UnicodeEncodeError ++ [LF]]
       /\ exit_code (reactor (exec (_on_compiler_output bundle) w))
          = Some 1%Z.
Proof.
  intros Hout H F. pose proof (encode_utf8_scalar bundle) as Hs.
  destruct (forallb scalar_value bundle).
  - destruct (proj2 Hs eq_refl) as [bs E]. exists bs.
    unfold exec. rewrite (_on_compiler_output_file_ok _ path _ bs) by done.
    cbn [snd]. split; [apply delivered_lookup|].
    split; [by apply encode_utf8_length | done].
  - assert (E : encode Utf8 bundle = None).
    { destruct (encode Utf8 bundle) eqn:E; [|done].
      assert (Hx : false = true) by (apply Hs; by eexists).
      discriminate Hx. }
    unfold exec. rewrite (_on_compiler_output_file _ path) by done.
    unfold try_except. rewrite deliver_unencodable by done.
    rewrite _on_fatal_error_spec. cbn [snd].
    split; [simpl; apply lookup_insert_eq | done].
Qed.

End Orchestrator.

(** * A concrete instance

    Timestamps are milliseconds, a diagnostic record is its message, and
    the renderers are simple stand-ins; the worlds below are those of a
    freshly started application. *)

Definition demo_format_error (e : Exception) : str :=
  [69; 58; 32] ++
  match e with
  | OSError msg => msg
  | UnicodeEncodeError => [117; 116; 102; 56]
  | AssertionError => [97; 115; 115; 101; 114; 116]
  | EngineError msg => msg
  end.

Definition demo_format_compiling (module dir : str) : str :=
  [67; 32] ++ module.

Definition demo_format_compiled (module dir : str) (t0 t1 : nat) : str :=
  [68; 32] ++ module.

Definition demo_format_diagnostic (diag dir : str) : str :=
  dir ++ [58; 32] ++ diag.

Definition demo_abspath (dir path : str) : str := dir ++ [47] ++ path.

Definition out_js : str := [111; 117; 116; 46; 106; 115].

Definition app_ts : str := [97; 112; 112; 46; 116; 115].

(** ["a\nb"] *)
Definition two_lines : str := [97; LF; 98].

Definition no_faults : nat -> option (Exception * nat) := fun _ => None.

(** The disk is full: the [open] goes through, the [write] after it
    fails once one byte is out. *)
Definition disk_full : nat -> option (Exception * nat) :=
  fun k => match k with 1%nat => Some (OSError [69; 78; 79; 83; 80; 67], 1%nat) | _ => None end.

(** The destination cannot be opened for writing. *)
Definition read_only : nat -> option (Exception * nat) :=
  fun k => match k with 0%nat => Some (OSError [69; 65; 67; 67; 69; 83], 0%nat) | _ => None end.

(** The text layer of a console that writes ["\r\n"] for ["\n"]. *)
Definition utf8_crlf : TextLayer := {| encoding := Utf8; write_nl := [CR; LF] |}.

Definition demo_options (out : option str) (w v : bool) : Options :=
  {| opt_module := app_ts; opt_output := out; opt_watch := w;
     opt_no_source_maps := false; opt_compress := false; opt_verbose := v;
     opt_output_format := [117]; opt_bundle_format := [101; 115; 109];
     opt_type_check := [102; 117; 108; 108] |}.

Definition demo_os (fl : nat -> option (Exception * nat)) (layer : TextLayer)
    : Os (Time := nat) :=
  {| cwd := [47; 112]; files := {[ out_js := [x6f; x6c; x64] ]};
     open_fds := ∅; io_ops := 0; faults := fl; stdout := [];
     stdout_layer := layer; ticks := 0; clock := fun k => (10 * k)%nat |}.

(** The world right after [_initialize]. *)
Definition demo_world (out : option str) (w v : bool)
    (fl : nat -> option (Exception * nat)) (layer : TextLayer)
    : World (Time := nat) (Diagnostic := str) :=
  _initialize demo_abspath (demo_options out w v)
    {| self := {| _module := []; _output := None; _mode := build;
                 _verbose := false; _compiler_options := [];
                 _compilation_started := None |};
       reactor := {| pending := []; exit_code := None |};
       os := demo_os fl layer;
       engine_watching := false |}.

(** An engine call that fails at once, and one full pass. *)
Definition failing_call : EngineCall (Diagnostic := str) :=
  {| emitted := []; raised := Some (EngineError [98; 97; 100]) |}.

Definition one_pass : EngineCall (Diagnostic := str) :=
  {| emitted := [starting; diagnostics [[119]]; output two_lines; finished];
     raised := None |}.

Example utf8_two_bytes : encode Utf8 [233] = Some [xc3; xa9].
Proof. reflexivity. Qed.

Example utf8_three_bytes : encode Utf8 [8364] = Some [xe2; x82; xac].
Proof. reflexivity. Qed.

Example utf8_four_bytes : encode Utf8 [128512] = Some [xf0; x9f; x98; x80].
Proof. reflexivity. Qed.

Example utf8_lone_surrogate : encode Utf8 [97; 55357] = None.
Proof. reflexivity. Qed.

Example crlf_bytes : layer_bytes utf8_crlf two_lines = Some [x61; x0d; x0a; x62].
Proof. reflexivity. Qed.

Example build_pass_queue :
  pending (reactor (exec (_start one_pass)
                      (demo_world None false false no_faults utf8_lf)))
  = [task_on_compiler_diagnostics [[119]]; task_on_compiler_output two_lines;
     task_on_compiler_finished].
Proof. reflexivity. Qed.

Example build_pass_stdout :
  stdout (os (steps demo_format_error demo_format_compiling
                demo_format_compiled demo_format_diagnostic
                [RunNext; RunNext; RunNext]
                (exec (_start one_pass)
                   (demo_world None false false no_faults utf8_lf))))
  = [[47; 112; 58; 32; 119; LF]; two_lines].
Proof. reflexivity. Qed.

(** The whole of a run: [_start], then the run loop. *)
Definition demo_run (call : EngineCall (Diagnostic := str))
    (w : World (Time := nat) (Diagnostic := str)) : option World :=
  reactor_run demo_format_error demo_format_compiling demo_format_compiled
    demo_format_diagnostic 16 (exec (_start call) w).

(** [app.ts]: nothing but the diagnostics and the bundle on standard
    output, exit code 0. *)
Example build_to_stdout :
  (fun w => (exit_code (reactor w), stdout (os w)))
    <$> demo_run one_pass (demo_world None false false no_faults utf8_lf)
  = Some (Some 0%Z, [[47; 112; 58; 32; 119; LF]; two_lines]).
Proof. reflexivity. Qed.

(** [app.ts -o out.js -v]: the file holds the bundle, no descriptor stays
    open, exit code 0. *)
Example build_to_file :
  (fun w => (exit_code (reactor w), files (os w) !! out_js,
             elements (open_fds (os w))))
    <$> demo_run one_pass
          (demo_world (Some out_js) false true no_faults utf8_lf)
  = Some (Some 0%Z, Some [x61; x0a; x62], []).
Proof. vm_compute. reflexivity. Qed.

(** [app.ts -o out.js] on a full disk: [_start] had requested exit code
    0, the failed delivery makes it 1, and the file is left with the one byte
    that went out. *)
Example build_to_full_disk :
  exit_code (reactor (exec (_start one_pass)
                        (demo_world (Some out_js) false false disk_full utf8_lf)))
  = Some 0%Z
  /\ (fun w => (exit_code (reactor w), files (os w) !! out_js,
                elements (open_fds (os w))))
       <$> demo_run one_pass
             (demo_world (Some out_js) false false disk_full utf8_lf)
     = Some (Some 1%Z, Some [x61], []).
Proof. split; vm_compute; reflexivity. Qed.

(** [app.ts -w]: verbose although [-v] is absent; the progress line comes
    after a terminal reset, and the engine goes on watching. *)
Example watch_pass :
  (fun w => (exit_code (reactor w), engine_watching w, take 2 (stdout (os w))))
    <$> demo_run one_pass (demo_world None true false no_faults utf8_lf)
  = Some (None, true,
          [[ESC; 99]; [67; 32; 47; 112; 47; 97; 112; 112; 46; 116; 115; LF]]).
Proof. reflexivity. Qed.

(** A console that takes ASCII only: the bundle ["é"] cannot be written,
    the exception leaves the handler, and the task ends with exit code 1. *)
Definition ascii_lf : TextLayer := {| encoding := Ascii; write_nl := [LF] |}.

Example build_to_ascii_console :
  result (_on_compiler_output demo_format_error [233])
    (demo_world None false false no_faults ascii_lf)
  = Raised UnicodeEncodeError
  /\ exit_code (reactor (run_task demo_format_error demo_format_compiling
                           demo_format_compiled demo_format_diagnostic
                           (task_on_compiler_output [233])
                           (demo_world None false false no_faults ascii_lf)))
     = Some 1%Z.
Proof. split; reflexivity. Qed.

(** A verbose ["finished"] with no ["starting"] before it trips the
    assertion. *)
Example finished_before_starting :
  result (_on_compiler_finished demo_format_compiled)
    (demo_world None false true no_faults utf8_lf)
  = Raised AssertionError.
Proof. reflexivity. Qed.

(** * The theorems at concrete inputs *)

Abbreviation demo_steps :=
  (steps demo_format_error demo_format_compiling demo_format_compiled
     demo_format_diagnostic).

(** A destination that cannot be opened: the error is printed and the
    exit code is 1, also after the rest of a pass. *)
Lemma output_delivery_error_is_fatal_witness :
  stdout (os (demo_steps [RunNext]
                (exec (callback (output two_lines))
                   (demo_world (Some out_js) false false read_only utf8_lf))))
  = [[69; 58; 32; 69; 65; 67; 67; 69; 83; LF]]
  /\ exit_code (reactor (demo_steps [Emit finished; RunNext]
       (demo_steps [RunNext]
          (exec (callback (output two_lines))
             (demo_world (Some out_js) false false read_only utf8_lf)))))
     = Some 1%Z.
Proof.
  destruct (output_delivery_error_is_fatal demo_format_error
              demo_format_compiling demo_format_compiled demo_format_diagnostic
              two_lines
              (demo_world (Some out_js) false false read_only utf8_lf)
              (OSError [69; 65; 67; 67; 69; 83])
              (with_os (set_io_ops 1)
                 (demo_world (Some out_js) false false read_only utf8_lf))
              (or_introl (ex_intro _ out_js (conj eq_refl eq_refl))))
    as (_ & Hout & _ & Hexit & _).
  split; [exact Hout | exact (Hexit [Emit finished; RunNext])].
Defined.

(** C2, as stated, fails: with a console that writes ["\r\n"] for
    ["\n"], the bundle ["a\nb"] reaches the file as three bytes and standard
    output as four. *)
Lemma sink_choice_changes_bytes :
  files (os (exec (_on_compiler_output demo_format_error two_lines)
               (demo_world (Some out_js) false false no_faults utf8_crlf)))
    !! out_js
  = Some [x61; x0a; x62]
  /\ stdout_bytes (exec (_on_compiler_output demo_format_error two_lines)
                     (demo_world None false false no_faults utf8_crlf))
     = Some [x61; x0d; x0a; x62]
  /\ [x61; x0a; x62] <> [x61; x0d; x0a; x62].
Proof.
  split; [|split; [reflexivity | discriminate]].
  unfold exec.
  rewrite (_on_compiler_output_file_ok demo_format_error two_lines out_js _
             [x61; x0a; x62]) by reflexivity.
  apply delivered_lookup.
Qed.

Lemma sinks_agree_on_utf8_lf_stdout_witness :
  files (os (exec (_on_compiler_output demo_format_error two_lines)
               (demo_world (Some out_js) false false no_faults utf8_lf)))
    !! out_js
  = Some [x61; x0a; x62]
  /\ stdout_bytes (exec (_on_compiler_output demo_format_error two_lines)
                     (demo_world None false false no_faults utf8_lf))
     = Some [x61; x0a; x62].
Proof.
  destruct (sinks_agree_on_utf8_lf_stdout demo_format_error two_lines out_js
              (demo_world (Some out_js) false false no_faults utf8_lf)
              (demo_world None false false no_faults utf8_lf)
              [x61; x0a; x62]
              eq_refl eq_refl eq_refl eq_refl eq_refl eq_refl eq_refl)
    as (_ & Hfile & Hout).
  split; [exact Hfile | exact Hout].
Defined.

(** C3, as stated, fails: in a build without [-v] the ["starting"]
    callback enqueues nothing and yet has stored the start timestamp when it
    returns, so it is not the scheduling of any task. *)
Lemma starting_callback_sets_timestamp :
  _compilation_started
    (self (demo_world None false false no_faults utf8_lf)) = None
  /\ _compilation_started
       (self (exec (callback starting)
               (demo_world None false false no_faults utf8_lf)))
     = Some 0%nat
  /\ pending (reactor (exec (callback starting)
                         (demo_world None false false no_faults utf8_lf)))
     = []
  /\ forall t,
       callback starting (demo_world None false false no_faults utf8_lf)
       <> schedule t (demo_world None false false no_faults utf8_lf).
Proof.
  split; [reflexivity|]. split; [reflexivity|]. split; [reflexivity|].
  intros t H.
  apply (f_equal (fun r => _compilation_started (self (snd r)))) in H.
  discriminate H.
Qed.

Lemma start_failure_is_fatal_witness :
  pending (reactor (exec (_start failing_call)
                      (demo_world None true false no_faults utf8_lf)))
  = [task_on_fatal_error (EngineError [98; 97; 100])]
  /\ exists w',
       reactor_run demo_format_error demo_format_compiling demo_format_compiled
         demo_format_diagnostic 1
         (exec (_start failing_call)
            (demo_world None true false no_faults utf8_lf))
       = Some w'
       /\ exit_code (reactor w') = Some 1%Z
       /\ exists out, stdout (os w') = out ++ [[69; 58; 32; 98; 97; 100; LF]].
Proof.
  destruct (start_failure_is_fatal demo_format_error demo_format_compiling
              demo_format_compiled demo_format_diagnostic failing_call
              (EngineError [98; 97; 100])
              (demo_world None true false no_faults utf8_lf)
              eq_refl eq_refl)
    as (Hstart & _ & _ & _ & Hrun).
  split.
  - unfold exec. rewrite Hstart. reflexivity.
  - apply (Hrun 1%nat). unfold exec. rewrite Hstart. simpl. lia.
Defined.

Lemma build_completion_exits_zero_witness :
  exit_code (reactor (exec (_start one_pass)
                        (demo_world None false false no_faults utf8_lf)))
  = Some 0%Z.
Proof.
  destruct (build_completion_exits_zero demo_format_error
              demo_format_compiling demo_format_compiled demo_format_diagnostic
              one_pass (demo_world None false false no_faults utf8_lf)
              eq_refl eq_refl)
    as (_ & Hexit & _).
  exact Hexit.
Defined.

Lemma output_file_scoped_witness :
  open_fds (os (exec (_on_compiler_output demo_format_error two_lines)
                  (demo_world (Some out_js) false false disk_full utf8_lf)))
  = ∅
  /\ files (os (exec (_on_compiler_output demo_format_error two_lines)
                  (demo_world (Some out_js) false false no_faults utf8_lf)))
       !! out_js
     = Some [x61; x0a; x62].
Proof.
  split.
  - apply (output_file_scoped demo_format_error two_lines out_js
             (demo_world (Some out_js) false false disk_full utf8_lf) eq_refl).
  - apply (output_file_scoped demo_format_error two_lines out_js
             (demo_world (Some out_js) false false no_faults utf8_lf) eq_refl);
      reflexivity.
Defined.

Lemma failed_write_loses_previous_contents_witness :
  files (os (demo_world (Some out_js) false false disk_full utf8_lf)) !! out_js
  = Some [x6f; x6c; x64]
  /\ files (os (exec (_on_compiler_output demo_format_error two_lines)
                  (demo_world (Some out_js) false false disk_full utf8_lf)))
       !! out_js
     = Some [x61]
  /\ exit_code (reactor (exec (_on_compiler_output demo_format_error two_lines)
                           (demo_world (Some out_js) false false disk_full
                              utf8_lf)))
     = Some 1%Z.
Proof.
  assert (Hold : files (os (demo_world (Some out_js) false false disk_full
                              utf8_lf)) !! out_js
                 = Some [x6f; x6c; x64])
    by apply lookup_singleton_eq.
  destruct (failed_write_loses_previous_contents demo_format_error two_lines
              out_js (demo_world (Some out_js) false false disk_full utf8_lf)
              [x61; x0a; x62] (OSError [69; 78; 79; 83; 80; 67]) 1
              [x6f; x6c; x64]
              eq_refl Hold eq_refl eq_refl eq_refl)
    as (_ & Hfile & _ & Hexit).
  split; [exact Hold|]. split; [exact Hfile | exact Hexit].
Defined.

(** * The further properties at concrete inputs *)

Lemma watch_never_exits_zero_witness :
  exit_code_kept_or_failed None
    (exit_code (reactor (demo_steps [RunNext; RunNext; Emit starting; RunNext]
       (exec (_start one_pass)
          (demo_world None true false no_faults utf8_lf))))).
Proof.
  exact (watch_never_exits_zero demo_format_error demo_format_compiling
           demo_format_compiled demo_format_diagnostic one_pass
           [RunNext; RunNext; Emit starting; RunNext]
           (demo_world None true false no_faults utf8_lf) eq_refl).
Defined.

Lemma timing_report_readings_witness :
  exists i,
    (i < ticks (os (demo_steps [Emit (output two_lines); RunNext]
                      (exec (callback starting)
                         (demo_world None false true no_faults utf8_lf)))))%nat
    /\ (0 <= i)%nat.
Proof.
  destruct (timing_report_readings demo_format_error demo_format_compiling
              demo_format_compiled demo_format_diagnostic
              [Emit (output two_lines); RunNext]
              (demo_world None false true no_faults utf8_lf) eq_refl)
    as (i & Hhi & Hlo & _).
  exists i. split; [exact Hhi | exact Hlo].
Defined.


Lemma file_sink_confined_witness :
  files (os (exec (_on_compiler_output demo_format_error two_lines)
               (demo_world (Some app_ts) false false disk_full utf8_lf)))
    !! out_js
  = files (os (demo_world (Some app_ts) false false disk_full utf8_lf))
      !! out_js.
Proof.
  destruct (file_sink_confined demo_format_error two_lines app_ts
              (demo_world (Some app_ts) false false disk_full utf8_lf) eq_refl)
    as [_ Hother].
  apply Hother. discriminate.
Defined.

Lemma later_bundle_replaces_earlier_witness :
  files (os (exec (_on_compiler_output demo_format_error [98])
               (exec (_on_compiler_output demo_format_error two_lines)
                  (demo_world (Some out_js) true false no_faults utf8_lf))))
    !! out_js
  = Some [x62]
  /\ stdout (os (exec (_on_compiler_output demo_format_error [98])
                   (exec (_on_compiler_output demo_format_error two_lines)
                      (demo_world None true false no_faults utf8_lf))))
     = [two_lines; [98]].
Proof.
  exact (later_bundle_replaces_earlier demo_format_error two_lines [98]
           [x61; x0a; x62] [x62] out_js
           (demo_world (Some out_js) true false no_faults utf8_lf)
           (demo_world None true false no_faults utf8_lf)
           eq_refl (fun _ => eq_refl) eq_refl eq_refl eq_refl
           (ex_intro _ [x61; x0a; x62] eq_refl) (ex_intro _ [x62] eq_refl)).
Defined.


Lemma file_sink_fails_on_surrogates_only_witness :
  files (os (exec (_on_compiler_output demo_format_error [97; 55357])
               (demo_world (Some out_js) false false no_faults utf8_lf)))
    !! out_js
  = Some []
  /\ stdout (os (exec (_on_compiler_output demo_format_error [97; 55357])
                   (demo_world (Some out_js) false false no_faults utf8_lf)))
     = [[69; 58; 32; 117; 116; 102; 56; LF]]
  /\ exit_code (reactor (exec (_on_compiler_output demo_format_error
                                 [97; 55357])
                           (demo_world (Some out_js) false false no_faults
                              utf8_lf)))
     = Some 1%Z.
Proof.
  exact (file_sink_fails_on_surrogates_only demo_format_error [97; 55357]
           out_js (demo_world (Some out_js) false false no_faults utf8_lf)
           eq_refl eq_refl eq_refl).
Defined.
